(** * Video-to-audio converter (app.py): a shallow embedding

    The Streamlit script [app.py] is re-executed top to bottom on every user
    interaction.  One execution is modelled as a computation over an explicit
    [world]: the scratch files, the session dictionary, the value held by the
    upload widget, the media handles that are open, and what has been drawn.
    Python exceptions and Streamlit's rerun request are outcomes of the
    computation; the state reached before they were raised is kept. *)

From Stdlib Require Import ZArith Ascii String List.
From stdpp Require Import gmap strings list fin_maps.

Local Open Scope string_scope.

(** ** Python strings and [os.path] *)

Module PyStr.

(** [s.rfind(c)]: index of the last occurrence of [c], [-1] when absent. *)
Fixpoint rfind (c : ascii) (s : string) : Z :=
  match s with
  | EmptyString => (-1)%Z
  | String x t =>
      let r := rfind c t in
      if (0 <=? r)%Z then (r + 1)%Z
      else if Ascii.eqb x c then 0%Z else (-1)%Z
  end.

(** [s[i:]] for [0 <= i]. *)
Fixpoint slice_from (i : nat) (s : string) : string :=
  match i, s with
  | O, _ => s
  | S _, EmptyString => EmptyString
  | S j, String _ t => slice_from j t
  end.

(** [s[:i]] for [0 <= i]. *)
Fixpoint slice_to (i : nat) (s : string) : string :=
  match i, s with
  | O, _ => EmptyString
  | S _, EmptyString => EmptyString
  | S j, String x t => String x (slice_to j t)
  end.

Definition startswith (c : ascii) (s : string) : bool :=
  match s with
  | String x _ => Ascii.eqb x c
  | EmptyString => false
  end.

Fixpoint endswith (c : ascii) (s : string) : bool :=
  match s with
  | EmptyString => false
  | String x EmptyString => Ascii.eqb x c
  | String _ t => endswith c t
  end.

(** Occurrence of a character, as a proposition. *)
Fixpoint occurs (c : ascii) (s : string) : Prop :=
  match s with
  | EmptyString => False
  | String x t => x = c \/ occurs c t
  end.

End PyStr.

Module os_path.
Import PyStr.

Definition sep : ascii := "/"%char.
Definition extsep : ascii := "."%char.

(** [posixpath.basename]: [i = p.rfind(sep) + 1; return p[i:]]. *)
Definition basename (p : string) : string :=
  let i := (rfind sep p + 1)%Z in
  slice_from (Z.to_nat i) p.

(** [posixpath.join(a, b)] with one extra component. *)
Definition join (a b : string) : string :=
  if startswith sep b then b
  else if (String.eqb a "" || endswith sep a)%bool then a ++ b
  else a ++ String sep b.

(** The loop of [genericpath._splitext] that skips the leading dots of the
    file name: it returns [true] as soon as a character between
    [filenameIndex] and [extSepIndex] is not a dot. *)
Fixpoint has_stem (fuel : nat) (filenameIndex : nat) (p : string) : bool :=
  match fuel with
  | O => false
  | S k =>
      match String.get filenameIndex p with
      | Some ch =>
          if Ascii.eqb ch extsep then has_stem k (S filenameIndex) p else true
      | None => true
      end
  end.

(** [posixpath.splitext]. *)
Definition splitext (p : string) : string * string :=
  let sepIndex := rfind sep p in
  let extSepIndex := rfind extsep p in
  if (sepIndex <? extSepIndex)%Z then
    let filenameIndex := Z.to_nat (sepIndex + 1) in
    if has_stem (Z.to_nat extSepIndex - filenameIndex) filenameIndex p
    then (slice_to (Z.to_nat extSepIndex) p, slice_from (Z.to_nat extSepIndex) p)
    else (p, "")
  else (p, "").

End os_path.

(** ** The world a script run acts on *)

Definition bytes := list Byte.byte.

(** What [st.file_uploader] hands to the script for one selected file. *)
Record UploadedFile := { name : string; getbuffer : bytes }.

Inductive reader := VideoReader (path : string) | AudioReader (path : string).

(** The payload of a download control: the bytes of one file, or an archive
    given by its entries in the order they were written. *)
Inductive payload :=
  | FileData (data : bytes)
  | ZipData (entries : list (string * bytes)).

Inductive element :=
  | error (body : string)
  | success (body : string)
  | download_button (label : string) (data : payload) (file_name mime : string).

Record world := World {
  files : gmap string bytes;          (* regular files, by path *)
  dirs : gset string;                 (* directories, by path *)
  session_state : gmap string (list string);   (* st.session_state *)
  file_uploader : list UploadedFile;  (* value held by the widget keyed "file_uploader" *)
  open_clips : gmap nat reader;       (* media handles not yet closed *)
  next_clip : nat;                    (* next handle the library gives out *)
  screen : list element               (* elements drawn so far, oldest first *)
}.

Definition set_files (f : gmap string bytes → gmap string bytes) (w : world) : world :=
  World (f (files w)) (dirs w) (session_state w) (file_uploader w)
        (open_clips w) (next_clip w) (screen w).

Definition set_dirs (f : gset string → gset string) (w : world) : world :=
  World (files w) (f (dirs w)) (session_state w) (file_uploader w)
        (open_clips w) (next_clip w) (screen w).

Definition set_session (f : gmap string (list string) → gmap string (list string))
    (w : world) : world :=
  World (files w) (dirs w) (f (session_state w)) (file_uploader w)
        (open_clips w) (next_clip w) (screen w).

Definition set_clips (f : gmap nat reader → gmap nat reader) (n : nat) (w : world) : world :=
  World (files w) (dirs w) (session_state w) (file_uploader w)
        (f (open_clips w)) n (screen w).

Definition draw (e : element) (w : world) : world :=
  World (files w) (dirs w) (session_state w) (file_uploader w)
        (open_clips w) (next_clip w) (screen w ++ [e])%list.

(** ** Computations that may raise *)

Inductive exn :=
  | FileNotFoundError (path : string)
  | KeyError (key : string)
  | IndexError
  | MediaError (msg : string).

(** [str(e)] as the f-string of [convert_to_audio] prints it. *)
Definition str (e : exn) : string :=
  match e with
  | FileNotFoundError p => "[Errno 2] No such file or directory: '" ++ p ++ "'"
  | KeyError k => "'" ++ k ++ "'"
  | IndexError => "list index out of range"
  | MediaError msg => msg
  end.

(** [Rerun] is Streamlit's request to stop the run and start the script
    again; it is not an [Exception] and [except Exception] lets it through. *)
Inductive result (A : Type) :=
  | Ok (a : A)
  | Raise (e : exn)
  | Rerun.
Arguments Ok {A} a.
Arguments Raise {A} e.
Arguments Rerun {A}.

Definition M (A : Type) : Type := world → result A * world.

Definition ret {A} (a : A) : M A := fun w => (Ok a, w).

Definition bind {A B} (m : M A) (k : A → M B) : M B :=
  fun w =>
    match m w with
    | (Ok a, w') => k a w'
    | (Raise e, w') => (Raise e, w')
    | (Rerun, w') => (Rerun, w')
    end.

Definition raise {A} (e : exn) : M A := fun w => (Raise e, w).

(** [try: body  except Exception as e: handler(e)]. *)
Definition try_except {A} (body : M A) (handler : exn → M A) : M A :=
  fun w =>
    match body w with
    | (Raise e, w') => handler e w'
    | r => r
    end.

Definition modify (f : world → world) : M unit := fun w => (Ok tt, f w).
Definition gets {A} (f : world → A) : M A := fun w => (Ok (f w), w).

Notation "x <- m ;; k" := (bind m (fun x => k))
  (at level 100, m at next level, right associativity).
Notation "m ;; k" := (bind m (fun _ => k))
  (at level 100, right associativity).

(** [for x in l: acc = body(acc, x)]. *)
Fixpoint for_each {A B} (body : B → A → M B) (l : list A) (acc : B) : M B :=
  match l with
  | [] => ret acc
  | x :: rest => acc' <- body acc x ;; for_each body rest acc'
  end.

(** ** Python and Streamlit primitives *)

(** [open(path, "wb").write(data)]; writes to scratch storage are taken to
    succeed: a disk that is full, or a path whose parent is not a directory,
    is not modelled. *)
Definition write_file (path : string) (data : bytes) : M unit :=
  modify (set_files (fun fs => <[path := data]> fs)).

(** [open(path, "rb").read()]. *)
Definition read_file (path : string) : M bytes :=
  fun w =>
    match files w !! path with
    | Some data => (Ok data, w)
    | None => (Raise (FileNotFoundError path), w)
    end.

Definition os_remove (path : string) : M unit :=
  fun w =>
    match files w !! path with
    | Some _ => (Ok tt, set_files (fun fs => delete path fs) w)
    | None => (Raise (FileNotFoundError path), w)
    end.

Definition os_path_exists (path : string) : M bool :=
  gets (fun w => bool_decide (path ∈ dirs w) || bool_decide (is_Some (files w !! path))).

Definition os_makedirs (path : string) : M unit :=
  modify (set_dirs (fun ds => {[path]} ∪ ds)).

(** [key in st.session_state]. *)
Definition session_contains (key : string) : M bool :=
  gets (fun w => bool_decide (is_Some (session_state w !! key))).

(** [st.session_state[key]]. *)
Definition session_get (key : string) : M (list string) :=
  fun w =>
    match session_state w !! key with
    | Some v => (Ok v, w)
    | None => (Raise (KeyError key), w)
    end.

(** [st.session_state[key] = v]. *)
Definition session_set (key : string) (v : list string) : M unit :=
  modify (set_session (fun s => <[key := v]> s)).

(** [del st.session_state[key]]. *)
Definition session_del (key : string) : M unit :=
  fun w =>
    match session_state w !! key with
    | Some _ => (Ok tt, set_session (fun s => delete key s) w)
    | None => (Raise (KeyError key), w)
    end.

Definition st_error (body : string) : M unit := modify (draw (error body)).
Definition st_success (body : string) : M unit := modify (draw (success body)).
Definition st_download_button (label : string) (data : payload) (file_name mime : string)
    : M unit :=
  modify (draw (download_button label data file_name mime)).
Definition st_rerun {A} : M A := fun w => (Rerun, w).
Definition time_sleep (seconds : nat) : M unit := ret tt.

(** Truth value of a Python list. *)
Definition truthy {A} (l : list A) : bool :=
  match l with [] => false | _ => true end.

(** ** The media library (moviepy), as far as the script uses it *)

Inductive encoding :=
  | EncodeError (err : string) (residue : option bytes)
      (* write_audiofile raises; residue is what it leaves at the target *)
  | Encoded (mp3 : bytes).
      (* write_audiofile writes mp3 to the target *)

Inductive container :=
  | Undecodable (err : string)          (* VideoFileClip(path) raises *)
  | Decodable (track : option encoding).  (* clip.audio is None or a track *)

Record AudioFileClip := { audio_handle : nat; track : encoding }.
Record VideoClip := { video_handle : nat; audio : option AudioFileClip }.

Inductive button := ConvertButton | ResetButton.

#[global] Instance button_eq_dec : EqDecision button.
Proof. solve_decision. Defined.

Section App.

(** What the library makes of the bytes found at a path. *)
Variable probe : string → bytes → container.

(** [VideoFileClip(video_path)]: opens a reader for the video and, when the
    container has an audio track, one for the audio. *)
Definition VideoFileClip (video_path : string) : M VideoClip :=
  fun w =>
    match files w !! video_path with
    | None => (Raise (FileNotFoundError video_path), w)
    | Some data =>
        match probe video_path data with
        | Undecodable err => (Raise (MediaError err), w)
        | Decodable None =>
            let h := next_clip w in
            (Ok {| video_handle := h; audio := None |},
             set_clips (fun c => <[h := VideoReader video_path]> c) (S h) w)
        | Decodable (Some t) =>
            let h := next_clip w in
            (Ok {| video_handle := h;
                   audio := Some {| audio_handle := S h; track := t |} |},
             set_clips (fun c => <[S h := AudioReader video_path]>
                                   (<[h := VideoReader video_path]> c))
                       (S (S h)) w)
        end
    end.

(** [audio_clip.write_audiofile(path, codec='mp3')]. *)
Definition write_audiofile (audio_clip : AudioFileClip) (path : string) : M unit :=
  match track audio_clip with
  | Encoded mp3 => write_file path mp3
  | EncodeError err residue =>
      match residue with
      | Some data => write_file path data
      | None => ret tt
      end ;;
      raise (MediaError err)
  end.

(** [audio_clip.close()]. *)
Definition close_audio (audio_clip : AudioFileClip) : M unit :=
  fun w => (Ok tt, set_clips (fun c => delete (audio_handle audio_clip) c) (next_clip w) w).

(** [video_clip.close()]: closes the video reader and the clip's audio. *)
Definition close_video (video_clip : VideoClip) : M unit :=
  fun w =>
    (Ok tt,
     set_clips (fun c =>
                  let c := delete (video_handle video_clip) c in
                  match audio video_clip with
                  | Some a => delete (audio_handle a) c
                  | None => c
                  end)
               (next_clip w) w).

(** ** app.py *)

(** Lines 52-66. *)
Definition convert_to_audio (video_path output_audio_path : string) : M bool :=
  try_except
    (video_clip <- VideoFileClip video_path ;;
     let audio_clip := audio video_clip in
     match audio_clip with
     | Some a =>
         write_audiofile a output_audio_path ;;
         close_audio a
     | None => ret tt
     end ;;
     close_video video_clip ;;
     ret true)
    (fun e =>
       st_error ("Error al procesar el archivo " ++ os_path.basename video_path
                 ++ ": " ++ str e) ;;
       ret false).

(** Lines 68-80. *)
Definition reset_app_state : M unit :=
  (has <- session_contains "processed_files" ;;
   if has then session_del "processed_files" else ret tt) ;;
  (has <- session_contains "uploaded_files" ;;
   if has then session_del "uploaded_files" else ret tt) ;;
  st_success "¡Listo para empezar de nuevo! Sube nuevos archivos." ;;
  time_sleep 2 ;;
  st_rerun.

(** Lines 120-134: the body of the loop over the uploaded files. *)
Definition convert_upload (temp_dir : string) (output_audio_paths : list string)
    (uploaded_file : UploadedFile) : M (list string) :=
  let video_path := os_path.join temp_dir (name uploaded_file) in
  write_file video_path (getbuffer uploaded_file) ;;
  let file_name := fst (os_path.splitext (name uploaded_file)) in
  let output_audio_path := os_path.join temp_dir (file_name ++ ".mp3") in
  converted <- convert_to_audio video_path output_audio_path ;;
  let output_audio_paths :=
    if converted : bool then (output_audio_paths ++ [output_audio_path])%list
    else output_audio_paths in
  os_remove video_path ;;
  ret output_audio_paths.

(** Lines 110-138. *)
Definition conversion (convert_button : bool) (uploaded_files : list UploadedFile)
    : M unit :=
  if convert_button && truthy uploaded_files then
    let temp_dir := "temp" in
    (present <- os_path_exists temp_dir ;;
     if negb present then os_makedirs temp_dir else ret tt) ;;
    output_audio_paths <- for_each (convert_upload temp_dir) uploaded_files [] ;;
    if truthy output_audio_paths then
      session_set "processed_files" output_audio_paths ;;
      st_rerun
    else ret tt
  else ret tt.

(** Lines 163-166: [zip_file.write(file_path, os.path.basename(file_path))]
    for every processed file; the archive is its list of entries. *)
Definition zip_write (zip_file : list (string * bytes)) (file_path : string)
    : M (list (string * bytes)) :=
  data <- read_file file_path ;;
  ret (zip_file ++ [(os_path.basename file_path, data)])%list.

(** Lines 146-178: the delivery of the processed files, by their number. *)
Definition deliver (processed_files : list string) : M unit :=
  if Nat.eqb (length processed_files) 1 then
    single_file_path <-
      match processed_files !! 0 with
      | Some p => ret p
      | None => raise IndexError
      end ;;
    let file_name := os_path.basename single_file_path in
    file <- read_file single_file_path ;;
    st_download_button ("📥 Descargar " ++ file_name) (FileData file)
                       file_name "audio/mpeg" ;;
    os_remove single_file_path
  else
    zip_buffer <- for_each zip_write processed_files [] ;;
    st_download_button "📥 Descargar todos los audios (.zip)" (ZipData zip_buffer)
                       "audios_convertidos.zip" "application/zip" ;;
    for_each (fun _ file_path => os_remove file_path) processed_files tt.

(** Lines 141-181. *)
Definition download : M unit :=
  has <- session_contains "processed_files" ;;
  shown <- (if has : bool then v <- session_get "processed_files" ;; ret (truthy v)
            else ret false) ;;
  if shown : bool then
    st_success "✅ ¡Conversión completada con éxito!" ;;
    processed_files <- session_get "processed_files" ;;
    deliver processed_files ;;
    session_del "processed_files"
  else ret tt.

(** One execution of the script.  [clicked] is the button whose press
    started it, if any; the upload widget returns the value it holds.
    Calls that only style or lay out the page are left out. *)
Definition script (clicked : option button) : M unit :=
  uploaded_files <- gets file_uploader ;;
  let convert_button :=
    bool_decide (clicked = Some ConvertButton) && truthy uploaded_files in
  (if bool_decide (clicked = Some ResetButton) then reset_app_state else ret tt) ;;
  conversion convert_button uploaded_files ;;
  download.

End App.

(** ** Runs and interactions *)

(** Streamlit draws every run on a fresh page. *)
Definition clear_screen (w : world) : world :=
  World (files w) (dirs w) (session_state w) (file_uploader w)
        (open_clips w) (next_clip w) [].

Definition run (probe : string → bytes → container) (clicked : option button)
    (w : world) : result unit * world :=
  script probe clicked (clear_screen w).

(** A click, the run it starts and, when that run asks for it, the rerun. *)
Definition interaction (probe : string → bytes → container) (clicked : option button)
    (w : world) : result unit * world :=
  match run probe clicked w with
  | (Rerun, w') => run probe None w'
  | r => r
  end.

(** The download controls among the elements drawn. *)
Definition controls (es : list element) : list element :=
  List.filter (fun e => match e with download_button _ _ _ _ => true | _ => false end) es.

(** The delivery rule in the words of the specification (section 4.3): the
    shape is chosen by the number of output paths alone. *)
Inductive shape := NoControl | SingleFile | Archive.

Definition delivery_shape (count : nat) : shape :=
  match count with
  | 0 => NoControl
  | 1 => SingleFile
  | _ => Archive
  end.

(** Every path of the list is a file on scratch storage. *)
Definition stored (w : world) (paths : list string) : Prop :=
  Forall (fun p => is_Some (files w !! p)) paths.

(** The error text of a per-file decode or encode failure, if the library
    fails on these bytes. *)
Definition extraction_error (probe : string → bytes → container)
    (video_path : string) (data : bytes) : option string :=
  match probe video_path data with
  | Undecodable err => Some err
  | Decodable (Some (EncodeError err _)) => Some err
  | Decodable (Some (Encoded _)) => None
  | Decodable None => None
  end.

(** ** Sample inputs *)

Module Sample.

(** A stand-in for the media library that reads the behaviour off the first
    byte of the file. *)
Definition probe (path : string) (data : bytes) : container :=
  match data with
  | Byte.x00 :: _ => Undecodable "moov atom not found"
  | Byte.x01 :: _ => Decodable None
  | Byte.x02 :: _ => Decodable (Some (EncodeError "encoder failed" None))
  | _ => Decodable (Some (Encoded data))
  end.

Definition upload (n : string) (b : Byte.byte) : UploadedFile :=
  {| name := n; getbuffer := [b] |}.

(** A fresh session in which the user has selected [uploads]. *)
Definition selected (uploads : list UploadedFile) : world :=
  World ∅ ∅ ∅ uploads ∅ 0 [].

(** [clip1.mp4] has audio, [clip2.avi] has none. *)
Definition with_silent_clip : world :=
  selected [upload "clip1.mp4" Byte.x10; upload "clip2.avi" Byte.x01].

(** Two videos with audio whose names differ only in the extension. *)
Definition same_stem : world :=
  selected [upload "a.mp4" Byte.x10; upload "a.mov" Byte.x11].

(** Two videos with audio and different stems. *)
Definition two_clips : world :=
  selected [upload "a.mp4" Byte.x10; upload "b.mov" Byte.x11].

(** A video whose audio fails to encode, already on scratch storage. *)
Definition encoder_fails : world :=
  World {["temp/a.mp4" := [Byte.x02]]} {["temp"]} ∅ [] ∅ 0 [].

(** One audio file waiting for delivery. *)
Definition one_output : world :=
  World {["temp/a.mp3" := [Byte.x10]]} {["temp"]}
        {["processed_files" := ["temp/a.mp3"]]} [] ∅ 0 [].

(** Two audio files waiting for delivery. *)
Definition two_outputs : world :=
  World (<["temp/b.mp3" := [Byte.x11]]> {["temp/a.mp3" := [Byte.x10]]}) {["temp"]}
        {["processed_files" := ["temp/a.mp3"; "temp/b.mp3"]]} [] ∅ 0 [].

End Sample.

(** ** Messages *)

Definition reset_message : string :=
  "¡Listo para empezar de nuevo! Sube nuevos archivos.".

Definition failure_message (video_path err : string) : string :=
  "Error al procesar el archivo " ++ os_path.basename video_path ++ ": " ++ err.

Definition completed_message : string := "✅ ¡Conversión completada con éxito!".

Definition file_label (file_name : string) : string := "📥 Descargar " ++ file_name.

Definition archive_label : string := "📥 Descargar todos los audios (.zip)".

(** ** Stepping through computations *)

Ltac step :=
  unfold st_error, st_success, st_download_button, time_sleep, write_file,
    session_set, session_contains, os_path_exists, os_makedirs in *;
  unfold bind, ret, raise, modify, gets, try_except, st_rerun in *;
  unfold set_files, set_dirs, set_session, set_clips, draw, clear_screen in *;
  cbn [fst snd files dirs session_state file_uploader open_clips next_clip screen] in *.

Ltac adapter :=
  unfold convert_to_audio, VideoFileClip, write_audiofile, close_audio, close_video,
    failure_message, str;
  step.

(** ** The loop, upload by upload *)

(** Where the loop writes an upload (line 121). *)
Definition video_path_of (temp_dir : string) (uploaded_file : UploadedFile) : string :=
  os_path.join temp_dir (name uploaded_file).

(** Where the loop asks for its audio (lines 126-127). *)
Definition output_path_of (temp_dir : string) (uploaded_file : UploadedFile) : string :=
  os_path.join temp_dir (fst (os_path.splitext (name uploaded_file)) ++ ".mp3").

(** What [convert_to_audio] answers for an upload, read off the library's
    behaviour on its bytes: [True] unless opening or encoding raises. *)
Definition answers (probe : string → bytes → container) (temp_dir : string)
    (uploaded_file : UploadedFile) : bool :=
  match probe (video_path_of temp_dir uploaded_file) (getbuffer uploaded_file) with
  | Undecodable _ => false
  | Decodable None => true
  | Decodable (Some (EncodeError _ _)) => false
  | Decodable (Some (Encoded _)) => true
  end.

(** What [convert_to_audio] draws for an upload: one error when opening or
    encoding raises, nothing otherwise. *)
Definition reports (probe : string → bytes → container) (temp_dir : string)
    (uploaded_file : UploadedFile) : list element :=
  match extraction_error probe (video_path_of temp_dir uploaded_file)
                         (getbuffer uploaded_file) with
  | Some err => [error (failure_message (video_path_of temp_dir uploaded_file) err)]
  | None => []
  end.

(** ** More sample states *)

(** The session after the convert button was pressed with [clip1.mp4] (audio)
    and [clip2.avi] (no audio) selected: two paths collected, one file. *)
Definition after_silent_conversion : world :=
  snd (run Sample.probe (Some ConvertButton) Sample.with_silent_clip).

(** A fresh session with [song.mp4], which has audio, selected. *)
Definition song_selected : world :=
  Sample.selected [Sample.upload "song.mp4" Byte.x10].

(** * Properties *)

(** ** Strings and paths *)

Section Paths.
Import PyStr os_path.




Lemma rfind_present c s : occurs c s → (0 <= rfind c s)%Z.
Proof.
  induction s as [|x t IH]; simpl; [tauto|].
  destruct (0 <=? rfind c t)%Z eqn:E.
  - apply Z.leb_le in E. lia.
  - apply Z.leb_gt in E. intros [->|H].
    + rewrite Ascii.eqb_refl. lia.
    + apply IH in H. lia.
Qed.

Lemma rfind_missing c s : ¬ occurs c s → rfind c s = (-1)%Z.
Proof.
  induction s as [|x t IH]; simpl; [done|]. intros H.
  rewrite IH by tauto. simpl.
  destruct (Ascii.eqb x c) eqn:Ex; [|done].
  apply Ascii.eqb_eq in Ex. tauto.
Qed.

(** The base name of [a/b] is [b] when [b] holds no separator. *)
Lemma basename_under a b : ¬ occurs sep b → basename (a ++ String sep b) = b.
Proof.
  intros Hb. unfold basename. induction a as [|x t IH]; simpl.
  - rewrite (rfind_missing sep b Hb). simpl. by destruct b.
  - assert (0 <= rfind sep (t ++ String sep b))%Z as Hr.
    { apply rfind_present. clear. induction t; simpl; auto. }
    destruct (0 <=? rfind sep (t ++ String sep b))%Z eqn:E;
      [|apply Z.leb_gt in E; lia].
    replace (Z.to_nat (rfind sep (t ++ String sep b) + 1 + 1))
      with (S (Z.to_nat (rfind sep (t ++ String sep b) + 1))) by lia.
    exact IH.
Qed.

(** The error message of the adapter names an upload by the name it was
    uploaded under. *)
Lemma basename_of_temporary_video n :
  ¬ occurs sep n → basename (join "temp" n) = n.
Proof.
  intros Hn. unfold join.
  assert (startswith sep n = false) as ->.
  { destruct n as [|x t]; [done|]. simpl in *.
    destruct (Ascii.eqb x sep) eqn:Ex; [|done].
    apply Ascii.eqb_eq in Ex. tauto. }
  simpl. by apply (basename_under "temp").
Qed.

End Paths.

Example basename_temp : os_path.basename "temp/clip1.mp3" = "clip1.mp3".
Proof. reflexivity. Qed.

Example splitext_mp4 : os_path.splitext "clip1.mp4" = ("clip1", ".mp4").
Proof. reflexivity. Qed.

Example splitext_hidden : os_path.splitext ".bashrc" = (".bashrc", "").
Proof. reflexivity. Qed.

Example splitext_two_dots : os_path.splitext "a.tar.gz" = ("a.tar", ".gz").
Proof. reflexivity. Qed.

Example join_temp : os_path.join "temp" "clip1.mp4" = "temp/clip1.mp4".
Proof. reflexivity. Qed.

Lemma bool_decide_is_Some_Some {A} (a : A) : bool_decide (is_Some (Some a)) = true.
Proof. apply bool_decide_eq_true. eauto. Qed.

Lemma bool_decide_is_Some_None {A} : bool_decide (is_Some (@None A)) = false.
Proof. apply bool_decide_eq_false. by intros [? ?]. Qed.

(** ** The reset action *)

(** What [reset_app_state] does, in one equation: it always ends in the rerun
    request, having dropped the two session keys and drawn its message. *)
Lemma reset_app_state_runs w :
  reset_app_state w =
    (Rerun,
     draw (success reset_message)
          (set_session (fun s => delete "uploaded_files" (delete "processed_files" s)) w)).
Proof.
  destruct w as [fs ds ss up oc nc sc].
  unfold reset_app_state, session_del, reset_message. step.
  destruct (ss !! "processed_files") as [v|] eqn:E1.
  - rewrite bool_decide_is_Some_Some. step. rewrite E1. step.
    destruct (delete "processed_files" ss !! "uploaded_files") as [v'|] eqn:E2.
    + rewrite bool_decide_is_Some_Some. step. rewrite E2. reflexivity.
    + rewrite bool_decide_is_Some_None. step. by rewrite (delete_id _ _ E2).
  - rewrite bool_decide_is_Some_None. step. rewrite (delete_id _ _ E1).
    destruct (ss !! "uploaded_files") as [v'|] eqn:E2.
    + rewrite bool_decide_is_Some_Some. step. rewrite E2. reflexivity.
    + rewrite bool_decide_is_Some_None. step. by rewrite (delete_id _ _ E2).
Qed.

Lemma reset_keeps_uploader w :
  file_uploader (snd (reset_app_state w)) = file_uploader w.
Proof. by rewrite reset_app_state_runs. Qed.

(** C10. The reset action never fails on a missing key (it always reaches its
    rerun request, whatever the session holds), it leaves the session
    dictionary without the two keys, and a second reset leaves the session
    dictionary as the first one left it. *)
Theorem reset_total_idempotent (w : world) :
  fst (reset_app_state w) = Rerun ∧
  session_state (snd (reset_app_state w)) =
    delete "uploaded_files" (delete "processed_files" (session_state w)) ∧
  session_state (snd (reset_app_state (snd (reset_app_state w)))) =
    session_state (snd (reset_app_state w)).
Proof.
  rewrite !reset_app_state_runs. cbn. repeat split.
  apply map_eq. intros k.
  rewrite !lookup_delete. repeat case_decide; done.
Qed.

(** The reset action on an empty session. *)
Example reset_on_fresh_session :
  fst (reset_app_state (Sample.selected [])) = Rerun.
Proof. by rewrite reset_app_state_runs. Qed.

(** C7, as amended.  The reset action removes the session's reference to the
    audio artifacts and leaves scratch storage exactly as it was. *)
Theorem reset_keeps_scratch_storage (w : world) :
  files (snd (reset_app_state w)) = files w ∧
  session_state (snd (reset_app_state w)) !! "processed_files" = None.
Proof.
  rewrite reset_app_state_runs. cbn. split; [done|].
  destruct (decide ("processed_files" = "uploaded_files")) as [E|_]; [done|].
  rewrite lookup_delete_ne by done. apply lookup_delete_eq.
Qed.

(** ** The extraction adapter *)

Section Adapter.

Variable probe : string → bytes → container.

(** The container cannot be opened: the handler reports it. *)
Lemma convert_to_audio_undecodable video_path output_audio_path w data err :
  files w !! video_path = Some data →
  probe video_path data = Undecodable err →
  convert_to_audio probe video_path output_audio_path w =
    (Ok false, draw (error (failure_message video_path err)) w).
Proof.
  intros Hf Hp. destruct w as [fs ds ss up oc nc sc]. adapter.
  cbn in Hf. rewrite Hf, Hp. reflexivity.
Qed.

(** The container has no audio track: nothing is written, the video reader is
    closed and the call answers [True]. *)
Lemma convert_to_audio_silent video_path output_audio_path w data :
  files w !! video_path = Some data →
  probe video_path data = Decodable None →
  convert_to_audio probe video_path output_audio_path w =
    (Ok true,
     set_clips (fun c => delete (next_clip w) (<[next_clip w := VideoReader video_path]> c))
               (S (next_clip w)) w).
Proof.
  intros Hf Hp. destruct w as [fs ds ss up oc nc sc]. adapter.
  cbn in Hf. rewrite Hf, Hp. reflexivity.
Qed.

(** The audio track is encoded: the target is written and both readers are
    closed. *)
Lemma convert_to_audio_encoded video_path output_audio_path w data mp3 :
  files w !! video_path = Some data →
  probe video_path data = Decodable (Some (Encoded mp3)) →
  convert_to_audio probe video_path output_audio_path w =
    (Ok true,
     set_clips (fun c =>
                  delete (S (next_clip w))
                    (delete (next_clip w)
                       (delete (S (next_clip w))
                          (<[S (next_clip w) := AudioReader video_path]>
                             (<[next_clip w := VideoReader video_path]> c)))))
               (S (S (next_clip w)))
               (set_files (fun fs => <[output_audio_path := mp3]> fs) w)).
Proof.
  intros Hf Hp. destruct w as [fs ds ss up oc nc sc]. adapter.
  cbn in Hf. rewrite Hf, Hp. reflexivity.
Qed.

(** Encoding raises: the handler reports it; neither [close] is reached, so
    both readers stay open. *)
Lemma convert_to_audio_encode_error video_path output_audio_path w data err residue :
  files w !! video_path = Some data →
  probe video_path data = Decodable (Some (EncodeError err residue)) →
  convert_to_audio probe video_path output_audio_path w =
    (Ok false,
     draw (error (failure_message video_path err))
       (set_clips (fun c => <[S (next_clip w) := AudioReader video_path]>
                              (<[next_clip w := VideoReader video_path]> c))
                  (S (S (next_clip w)))
                  (set_files (fun fs => match residue with
                                        | Some r => <[output_audio_path := r]> fs
                                        | None => fs
                                        end) w))).
Proof.
  intros Hf Hp. destruct w as [fs ds ss up oc nc sc]. adapter.
  cbn in Hf. rewrite Hf, Hp. destruct residue; reflexivity.
Qed.

(** The video file is not there: the handler reports it. *)
Lemma convert_to_audio_missing video_path output_audio_path w :
  files w !! video_path = None →
  convert_to_audio probe video_path output_audio_path w =
    (Ok false,
     draw (error (failure_message video_path (str (FileNotFoundError video_path)))) w).
Proof.
  intros Hf. destruct w as [fs ds ss up oc nc sc]. adapter.
  cbn in Hf. rewrite Hf. reflexivity.
Qed.

(** The adapter always answers with a boolean; it never removes a file and
    never touches the session. *)
Lemma convert_to_audio_total video_path output_audio_path w :
  ∃ b w',
    convert_to_audio probe video_path output_audio_path w = (Ok b, w') ∧
    (∀ p, is_Some (files w !! p) → is_Some (files w' !! p)) ∧
    session_state w' = session_state w ∧
    file_uploader w' = file_uploader w.
Proof.
  destruct (files w !! video_path) as [data|] eqn:Hf.
  - destruct (probe video_path data) as [err|[[err residue|mp3]|]] eqn:Hp.
    + erewrite convert_to_audio_undecodable by eauto. do 2 eexists. by step.
    + erewrite convert_to_audio_encode_error by eauto. do 2 eexists.
      split; [done|]. step. repeat split.
      intros p Hs. destruct residue; [|done].
      destruct (decide (output_audio_path = p)) as [->|Hne].
      * rewrite lookup_insert_eq. eauto.
      * by rewrite lookup_insert_ne.
    + erewrite convert_to_audio_encoded by eauto. do 2 eexists.
      split; [done|]. step. repeat split.
      intros p Hs.
      destruct (decide (output_audio_path = p)) as [->|Hne].
      * rewrite lookup_insert_eq. eauto.
      * by rewrite lookup_insert_ne.
    + erewrite convert_to_audio_silent by eauto. do 2 eexists. by step.
  - erewrite convert_to_audio_missing by eauto. do 2 eexists. by step.
Qed.

End Adapter.

(** ** The batch loop *)

Section Batch.

Variable probe : string → bytes → container.
Variable temp_dir : string.

(** One turn of the loop always completes, and when it does the temporary
    video is gone. *)
Lemma convert_upload_total output_audio_paths uploaded_file w :
  ∃ paths w',
    convert_upload probe temp_dir output_audio_paths uploaded_file w = (Ok paths, w') ∧
    files w' !! os_path.join temp_dir (name uploaded_file) = None ∧
    session_state w' = session_state w ∧
    file_uploader w' = file_uploader w.
Proof.
  unfold convert_upload.
  set (video_path := os_path.join temp_dir (name uploaded_file)).
  set (output := os_path.join temp_dir _).
  unfold bind at 1. unfold write_file, modify.
  set (w1 := set_files _ w).
  destruct (convert_to_audio_total probe video_path output w1)
    as (b & w2 & Hc & Hkeep & Hs & Hu).
  unfold bind at 1. rewrite Hc.
  assert (is_Some (files w2 !! video_path)) as [data Hd].
  { apply Hkeep. subst w1. unfold set_files. cbn. rewrite lookup_insert_eq. eauto. }
  unfold bind, os_remove, ret. rewrite Hd.
  do 2 eexists. split; [reflexivity|].
  unfold set_files. cbn. rewrite lookup_delete_eq, Hs, Hu. by subst w1.
Qed.

(** The loop works through every uploaded file: no turn raises. *)
Lemma batch_total uploaded_files output_audio_paths w :
  ∃ paths w',
    for_each (convert_upload probe temp_dir) uploaded_files output_audio_paths w = (Ok paths, w') ∧
    session_state w' = session_state w ∧
    file_uploader w' = file_uploader w.
Proof.
  revert output_audio_paths w.
  induction uploaded_files as [|f rest IH]; intros acc w; cbn.
  - by exists acc, w.
  - destruct (convert_upload_total acc f w) as (acc1 & w1 & H1 & _ & Hs & Hu).
    unfold bind. rewrite H1.
    destruct (IH acc1 w1) as (paths & w' & H2 & Hs' & Hu').
    exists paths, w'. by rewrite H2, Hs', Hu', Hs, Hu.
Qed.

(** The loop over [pre ++ f :: rest] reaches [f] and goes on after it. *)
Lemma batch_reaches pre f rest output_audio_paths w :
  ∃ acc1 w1 acc2 w2,
    for_each (convert_upload probe temp_dir) pre output_audio_paths w = (Ok acc1, w1) ∧
    convert_upload probe temp_dir acc1 f w1 = (Ok acc2, w2) ∧
    for_each (convert_upload probe temp_dir) (pre ++ f :: rest) output_audio_paths w = for_each (convert_upload probe temp_dir) rest acc2 w2.
Proof.
  revert output_audio_paths w.
  induction pre as [|g pre IH]; intros acc w; cbn.
  - destruct (convert_upload_total acc f w) as (acc2 & w2 & H2 & _).
    exists acc, w, acc2, w2. unfold ret, bind. by rewrite H2.
  - destruct (convert_upload_total acc g w) as (acc0 & w0 & H0 & _).
    unfold bind. rewrite H0. apply IH.
Qed.

End Batch.

(** C8. Whatever the batch and wherever a file stands in it, the loop reaches
    that file, its turn completes whether or not extraction succeeded, and
    at the end of the turn the temporary video written for it is no longer on
    scratch storage; the loop then goes on with the files after it. *)
Theorem temporary_video_removed
    (probe : string → bytes → container) (temp_dir : string)
    (pre : list UploadedFile) (uploaded_file : UploadedFile) (rest : list UploadedFile)
    (output_audio_paths : list string) (w : world) :
  ∃ acc1 w1 acc2 w2,
    for_each (convert_upload probe temp_dir) pre output_audio_paths w = (Ok acc1, w1) ∧
    convert_upload probe temp_dir acc1 uploaded_file w1 = (Ok acc2, w2) ∧
    files w2 !! os_path.join temp_dir (name uploaded_file) = None ∧
    for_each (convert_upload probe temp_dir) (pre ++ uploaded_file :: rest)
             output_audio_paths w
    = for_each (convert_upload probe temp_dir) rest acc2 w2.
Proof.
  destruct (batch_reaches probe temp_dir pre uploaded_file rest output_audio_paths w)
    as (acc1 & w1 & acc2 & w2 & H1 & H2 & H3).
  exists acc1, w1, acc2, w2. repeat split; try done.
  destruct (convert_upload_total probe temp_dir acc1 uploaded_file w1)
    as (acc2' & w2' & H2' & Hgone & _).
  rewrite H2 in H2'. by inversion H2'; subst.
Qed.

(** A decode or encode failure, seen from the adapter: it answers [False]
    and draws one error that names the file and carries the error text. *)
Lemma convert_to_audio_failure
    (probe : string → bytes → container) video_path output_audio_path w data err :
  files w !! video_path = Some data →
  extraction_error probe video_path data = Some err →
  ∃ w',
    convert_to_audio probe video_path output_audio_path w = (Ok false, w') ∧
    screen w' = (screen w ++ [error (failure_message video_path err)])%list.
Proof.
  intros Hf He. unfold extraction_error in He.
  destruct (probe video_path data) as [e|[[e residue|mp3]|]] eqn:Hp;
    inversion He; subst.
  - erewrite convert_to_audio_undecodable by eauto. eexists. by step.
  - erewrite convert_to_audio_encode_error by eauto. eexists. by step.
Qed.

(** C4. When the library fails to decode or encode an uploaded file, the
    adapter (called as the loop calls it, on the video just written to scratch
    storage) answers [False] and draws an error naming the file, by the base
    name of its path, followed by the error text; the turn of the loop
    completes without collecting a path, the loop goes on with the remaining
    files, and it works through all of them. *)
Theorem failure_reported_batch_continues
    (probe : string → bytes → container) (temp_dir : string)
    (uploaded_file : UploadedFile) (rest : list UploadedFile)
    (output_audio_paths : list string) (w : world) (err : string) :
  let video_path := os_path.join temp_dir (name uploaded_file) in
  let output_audio_path :=
    os_path.join temp_dir (fst (os_path.splitext (name uploaded_file)) ++ ".mp3") in
  extraction_error probe video_path (getbuffer uploaded_file) = Some err →
  ∃ w1 w2 paths w3,
    convert_to_audio probe video_path output_audio_path
      (snd (write_file video_path (getbuffer uploaded_file) w)) = (Ok false, w1) ∧
    screen w1 =
      (screen w ++ [error ("Error al procesar el archivo "
                           ++ os_path.basename video_path ++ ": " ++ err)])%list ∧
    convert_upload probe temp_dir output_audio_paths uploaded_file w
      = (Ok output_audio_paths, w2) ∧
    screen w2 = screen w1 ∧
    for_each (convert_upload probe temp_dir) (uploaded_file :: rest) output_audio_paths w
      = for_each (convert_upload probe temp_dir) rest output_audio_paths w2 ∧
    for_each (convert_upload probe temp_dir) rest output_audio_paths w2 = (Ok paths, w3).
Proof.
  intros video_path output_audio_path He.
  set (w0 := snd (write_file video_path (getbuffer uploaded_file) w)).
  assert (files w0 !! video_path = Some (getbuffer uploaded_file)) as Hf.
  { subst w0. step. apply lookup_insert_eq. }
  destruct (convert_to_audio_failure probe video_path output_audio_path w0 _ err Hf He)
    as (w1 & Hc & Hscreen).
  destruct (convert_to_audio_total probe video_path output_audio_path w0)
    as (b & w1' & Hc' & Hkeep & _).
  rewrite Hc in Hc'. inversion Hc'; subst b w1'. clear Hc'.
  destruct (Hkeep video_path) as [data Hd]; [rewrite Hf; eauto|].
  set (w2 := set_files (fun fs => delete video_path fs) w1).
  assert (convert_upload probe temp_dir output_audio_paths uploaded_file w
          = (Ok output_audio_paths, w2)) as Hturn.
  { unfold convert_upload. fold video_path. fold output_audio_path.
    unfold bind at 1. unfold write_file at 1, modify at 1.
    unfold bind at 1. subst w0. unfold write_file, modify in Hc. cbn [snd] in Hc.
    rewrite Hc. unfold bind, os_remove, ret. rewrite Hd. reflexivity. }
  destruct (batch_total probe temp_dir rest output_audio_paths w2)
    as (paths & w3 & Hrest & _).
  exists w1, w2, paths, w3.
  split; [exact Hc|].
  split; [rewrite Hscreen; subst w0; by step|].
  split; [exact Hturn|].
  split; [reflexivity|].
  split; [|exact Hrest].
  cbn [for_each]. unfold bind at 1. by rewrite Hturn.
Qed.

(** C4 at a sample: an undecodable upload followed by a good one. *)
Lemma failure_reported_batch_continues_witness :
  extraction_error Sample.probe (os_path.join "temp" "bad.mp4") [Byte.x00]
    = Some "moov atom not found" ∧
  ∃ w1 w2 paths w3,
    convert_to_audio Sample.probe "temp/bad.mp4" "temp/bad.mp3"
      (snd (write_file "temp/bad.mp4" [Byte.x00] (Sample.selected []))) = (Ok false, w1) ∧
    screen w1 = [error "Error al procesar el archivo bad.mp4: moov atom not found"] ∧
    convert_upload Sample.probe "temp" [] (Sample.upload "bad.mp4" Byte.x00)
      (Sample.selected []) = (Ok [], w2) ∧
    screen w2 = screen w1 ∧
    for_each (convert_upload Sample.probe "temp")
      [Sample.upload "bad.mp4" Byte.x00; Sample.upload "good.mp4" Byte.x10] []
      (Sample.selected [])
    = for_each (convert_upload Sample.probe "temp") [Sample.upload "good.mp4" Byte.x10] [] w2 ∧
    for_each (convert_upload Sample.probe "temp") [Sample.upload "good.mp4" Byte.x10] [] w2
    = (Ok paths, w3).
Proof.
  split; [reflexivity|].
  apply (failure_reported_batch_continues Sample.probe "temp"
           (Sample.upload "bad.mp4" Byte.x00) [Sample.upload "good.mp4" Byte.x10]
           [] (Sample.selected []) "moov atom not found").
  reflexivity.
Defined.

(** ** A video without an audio track *)

(** The turn of the loop for a container without audio: nothing is written
    to the output path, and yet the path is collected. *)
Lemma silent_upload_turn
    (probe : string → bytes → container) temp_dir output_audio_paths uploaded_file w :
  let video_path := os_path.join temp_dir (name uploaded_file) in
  let output_audio_path :=
    os_path.join temp_dir (fst (os_path.splitext (name uploaded_file)) ++ ".mp3") in
  probe video_path (getbuffer uploaded_file) = Decodable None →
  ∃ w',
    convert_upload probe temp_dir output_audio_paths uploaded_file w
      = (Ok (output_audio_paths ++ [output_audio_path])%list, w') ∧
    files w' = delete video_path (<[video_path := getbuffer uploaded_file]> (files w)).
Proof.
  intros video_path output_audio_path Hp.
  unfold convert_upload. fold video_path. fold output_audio_path.
  unfold bind at 1. unfold write_file at 1, modify at 1.
  unfold bind at 1.
  erewrite convert_to_audio_silent; [| |exact Hp].
  2: { step. apply lookup_insert_eq. }
  unfold bind, os_remove, ret. step. rewrite lookup_insert_eq.
  eexists. split; reflexivity.
Qed.

(** C1, on the code.  The user uploads [clip1.mp4], which has audio, and
    [clip2.avi], which has none, and presses the convert button.  The run
    writes no file for [clip2.avi] but stores its output path next to the one
    of [clip1.mp4] and asks for the rerun; the rerun then fails on the
    missing file while building the archive. *)
Theorem silent_upload_is_collected :
  let r := run Sample.probe (Some ConvertButton) Sample.with_silent_clip in
  fst r = Rerun ∧
  session_state (snd r) !! "processed_files" = Some ["temp/clip1.mp3"; "temp/clip2.mp3"] ∧
  files (snd r) !! "temp/clip1.mp3" = Some [Byte.x10] ∧
  files (snd r) !! "temp/clip2.mp3" = None ∧
  fst (run Sample.probe None (snd r)) = Raise (FileNotFoundError "temp/clip2.mp3").
Proof. vm_compute. repeat split. Qed.

(** ** Media handles *)

(** When the adapter answers [True], every handle the library gave out during
    the call has been closed. *)
Lemma readers_closed_on_success
    (probe : string → bytes → container) video_path output_audio_path w w' :
  convert_to_audio probe video_path output_audio_path w = (Ok true, w') →
  ∀ h, next_clip w ≤ h < next_clip w' → open_clips w' !! h = None.
Proof.
  intros Hc h Hh.
  destruct (files w !! video_path) as [data|] eqn:Hf.
  - destruct (probe video_path data) as [err|[[err residue|mp3]|]] eqn:Hp.
    + erewrite convert_to_audio_undecodable in Hc by eauto. by inversion Hc.
    + erewrite convert_to_audio_encode_error in Hc by eauto. by inversion Hc.
    + erewrite convert_to_audio_encoded in Hc by eauto. inversion Hc; subst w'.
      step. rewrite !lookup_delete. repeat case_decide; try done.
      rewrite !lookup_insert. repeat case_decide; try done. lia.
    + erewrite convert_to_audio_silent in Hc by eauto. inversion Hc; subst w'.
      step. rewrite !lookup_delete. repeat case_decide; try done. lia.
  - erewrite convert_to_audio_missing in Hc by eauto. by inversion Hc.
Qed.

(** When encoding raises, the two readers opened for the call are still open
    after it. *)
Lemma readers_left_open_on_encode_error
    (probe : string → bytes → container) video_path output_audio_path w data err residue :
  files w !! video_path = Some data →
  probe video_path data = Decodable (Some (EncodeError err residue)) →
  let w' := snd (convert_to_audio probe video_path output_audio_path w) in
  open_clips w' !! next_clip w = Some (VideoReader video_path) ∧
  open_clips w' !! S (next_clip w) = Some (AudioReader video_path).
Proof.
  intros Hf Hp. cbn zeta.
  erewrite convert_to_audio_encode_error by eauto. step. split.
  - rewrite lookup_insert_ne by lia. apply lookup_insert_eq.
  - apply lookup_insert_eq.
Qed.

(** C5, on the code.  For a video whose audio fails to encode, the adapter
    answers [False] with both the video reader and the audio reader still
    open, although no handle was open before the call. *)
Theorem encode_error_leaves_readers_open :
  let r := convert_to_audio Sample.probe "temp/a.mp4" "temp/a.mp3" Sample.encoder_fails in
  open_clips Sample.encoder_fails = ∅ ∧
  fst r = Ok false ∧
  open_clips (snd r) !! 0 = Some (VideoReader "temp/a.mp4") ∧
  open_clips (snd r) !! 1 = Some (AudioReader "temp/a.mp4").
Proof. vm_compute. repeat split. Qed.

(** ** Packaging and delivery *)

(** Building the archive reads the files and leaves the world as it is. *)
Lemma zip_write_world processed_files zip_file w :
  snd (for_each zip_write processed_files zip_file w) = w.
Proof.
  revert zip_file w.
  induction processed_files as [|p rest IH]; intros acc w; cbn; [done|].
  unfold bind at 1. unfold zip_write at 1, read_file, bind, ret.
  destruct (files w !! p); [apply IH|done].
Qed.

(** With every file in place, the archive gets one entry per path, in order,
    named by the base name of the path and holding the bytes of the file. *)
Lemma zip_write_entries processed_files zip_file w :
  stored w processed_files →
  ∃ entries,
    for_each zip_write processed_files zip_file w = (Ok (zip_file ++ entries)%list, w) ∧
    Forall2 (fun p e => fst e = os_path.basename p ∧ files w !! p = Some (snd e))
            processed_files entries.
Proof.
  revert zip_file.
  induction processed_files as [|p rest IH]; intros acc Hst; cbn.
  - exists []. by rewrite app_nil_r.
  - inversion Hst as [|? ? [data Hd] Hrest]; subst.
    destruct (IH (acc ++ [(os_path.basename p, data)])%list Hrest) as (entries & He & Hall).
    exists ((os_path.basename p, data) :: entries). split.
    + unfold bind at 1. unfold zip_write at 1, read_file, bind, ret.
      rewrite Hd, He. by rewrite <- app_assoc.
    + by constructor.
Qed.

(** The clean-up loop draws nothing and leaves the session alone, however it
    ends. *)
Lemma remove_all_frame processed_files w r w' :
  for_each (fun _ file_path => os_remove file_path) processed_files tt w = (r, w') →
  screen w' = screen w ∧ session_state w' = session_state w.
Proof.
  revert w. induction processed_files as [|p rest IH]; intros w; cbn [for_each].
  - unfold ret. by intros [= <- <-].
  - unfold bind at 1. unfold os_remove at 1. destruct (files w !! p).
    + intros H. by apply IH in H.
    + by intros [= <- <-].
Qed.

(** When the clean-up loop completes, every path it went through is gone;
    paths that were absent stay absent. *)
Lemma remove_all_gone processed_files w w' :
  for_each (fun _ file_path => os_remove file_path) processed_files tt w = (Ok tt, w') →
  Forall (fun p => files w' !! p = None) processed_files ∧
  (∀ q, files w !! q = None → files w' !! q = None).
Proof.
  revert w. induction processed_files as [|p rest IH]; intros w; cbn.
  - unfold ret. intros [= <-]. by split.
  - unfold bind, os_remove. destruct (files w !! p) eqn:Hp; [|done].
    intros Hrest. destruct (IH _ Hrest) as [Hall Hmono]. step. split.
    + constructor; [|done]. apply Hmono. apply lookup_delete_eq.
    + intros q Hq. apply Hmono. rewrite lookup_delete. case_decide; done.
Qed.

(** With pairwise distinct paths, all in place, the clean-up loop completes. *)
Lemma remove_all_completes processed_files w :
  NoDup processed_files → stored w processed_files →
  ∃ w', for_each (fun _ file_path => os_remove file_path) processed_files tt w = (Ok tt, w').
Proof.
  revert w. induction processed_files as [|p rest IH]; intros w Hnd Hst; cbn.
  - by exists w.
  - apply NoDup_cons in Hnd as [Hnotin Hnd].
    inversion Hst as [|? ? [data Hd] Hrest]; subst.
    unfold bind, os_remove. rewrite Hd. apply IH; [done|].
    unfold stored in *. rewrite Forall_forall in *. intros q Hq. step.
    rewrite lookup_delete_ne; [by apply Hrest|]. intros ->. done.
Qed.

(** The first lines of the delivery stage. *)
Lemma download_header w processed_files :
  session_state w !! "processed_files" = Some processed_files →
  processed_files ≠ [] →
  download w =
    (deliver processed_files ;; session_del "processed_files")
      (draw (success completed_message) w).
Proof.
  intros Hs Hne. destruct w as [fs ds ss up oc nc sc]. cbn in Hs.
  unfold download, session_get, completed_message. step.
  rewrite Hs, bool_decide_is_Some_Some. step. rewrite Hs.
  destruct processed_files; [done|]. cbn [truthy]. step. rewrite Hs. reflexivity.
Qed.

(** With nothing to deliver the stage does nothing. *)
Lemma download_nothing w :
  session_state w !! "processed_files" = None ∨
  session_state w !! "processed_files" = Some [] →
  download w = (Ok tt, w).
Proof.
  intros Hs. destruct w as [fs ds ss up oc nc sc]. cbn in Hs.
  unfold download, session_get. step.
  destruct Hs as [Hs|Hs]; rewrite Hs.
  - rewrite bool_decide_is_Some_None. reflexivity.
  - rewrite bool_decide_is_Some_Some. step. rewrite Hs. reflexivity.
Qed.

(** Deleting the session key draws nothing. *)
Lemma session_del_screen {A} (m : M A) key w :
  screen (snd ((m ;; session_del key) w)) = screen (snd (m w)).
Proof.
  unfold bind, session_del. destruct (m w) as [[a| |] w1]; [|done|done].
  by destruct (session_state w1 !! key).
Qed.

(** One processed file, in place: it is offered under its base name and then
    removed. *)
Lemma deliver_single p data w :
  files w !! p = Some data →
  deliver [p] w =
    (Ok tt,
     set_files (fun fs => delete p fs)
       (draw (download_button (file_label (os_path.basename p)) (FileData data)
                              (os_path.basename p) "audio/mpeg") w)).
Proof.
  intros Hf. destruct w as [fs ds ss up oc nc sc]. cbn in Hf.
  unfold deliver, read_file, os_remove, file_label. cbn [length Nat.eqb lookup list_lookup].
  step. rewrite Hf. step. rewrite Hf. reflexivity.
Qed.

(** Several processed files, all in place: the archive is offered and the
    clean-up loop starts. *)
Lemma deliver_archive processed_files w :
  1 < length processed_files →
  stored w processed_files →
  ∃ entries,
    Forall2 (fun p e => fst e = os_path.basename p ∧ files w !! p = Some (snd e))
            processed_files entries ∧
    deliver processed_files w =
      for_each (fun _ file_path => os_remove file_path) processed_files tt
        (draw (download_button archive_label (ZipData entries)
                               "audios_convertidos.zip" "application/zip") w).
Proof.
  intros Hlen Hst.
  destruct (zip_write_entries processed_files [] w Hst) as (entries & Hz & Hall).
  exists entries. split; [done|].
  unfold deliver. destruct (Nat.eqb_spec (length processed_files) 1) as [E|_]; [lia|].
  unfold bind at 1. rewrite Hz. cbn [app].
  unfold st_download_button, archive_label, bind, modify. reflexivity.
Qed.

(** When the delivery completes, every processed file is gone. *)
Lemma deliver_gone processed_files w w' :
  deliver processed_files w = (Ok tt, w') →
  Forall (fun p => files w' !! p = None) processed_files.
Proof.
  unfold deliver. destruct (Nat.eqb_spec (length processed_files) 1) as [E|_].
  - destruct processed_files as [|p [|? ?]]; try discriminate. clear E.
    cbn [lookup list_lookup]. unfold read_file, os_remove. step.
    destruct (files w !! p) eqn:Hf; [|done]. step. rewrite Hf.
    intros [= <-]. constructor; [|done]. step. apply lookup_delete_eq.
  - unfold bind at 1.
    pose proof (zip_write_world processed_files [] w) as Hw.
    destruct (for_each zip_write processed_files [] w) as [[entries| |] w1];
      [|done|done].
    cbn in Hw. subst w1. unfold st_download_button, modify. unfold bind at 1.
    intros Hrm. apply remove_all_gone in Hrm as [Hall _]. done.
Qed.

(** The delivery rule where the collected paths are files on scratch storage:
    what the delivery stage offers is decided by the length of the list alone:
    nothing for length 0; for length 1 that file's bytes, under its base name,
    with MIME type audio/mpeg; for any greater length one archive with MIME
    type application/zip.  There the rule of the specification,
    [delivery_shape], and the branches of the code agree. *)
Theorem delivery_shape_by_count (w : world) (processed_files : list string) :
  session_state w !! "processed_files" = Some processed_files →
  stored w processed_files →
  ∃ new,
    screen (snd (download w)) = (screen w ++ new)%list ∧
    match delivery_shape (length processed_files) with
    | NoControl => controls new = []
    | SingleFile =>
        ∃ p data,
          processed_files = [p] ∧ files w !! p = Some data ∧
          controls new =
            [download_button (file_label (os_path.basename p)) (FileData data)
                             (os_path.basename p) "audio/mpeg"]
    | Archive =>
        ∃ entries,
          controls new =
            [download_button archive_label (ZipData entries)
                             "audios_convertidos.zip" "application/zip"]
    end.
Proof.
  intros Hs Hst. destruct processed_files as [|p [|q rest]].
  - exists []. rewrite download_nothing by auto. cbn. by rewrite app_nil_r.
  - inversion Hst as [|? ? [data Hd] _]; subst.
    rewrite (download_header w [p]) by done. rewrite session_del_screen.
    rewrite (deliver_single p data) by done. step.
    eexists. split; [by rewrite <- app_assoc|]. cbn. eauto.
  - set (pf := p :: q :: rest) in *.
    rewrite (download_header w pf) by done. rewrite session_del_screen.
    destruct (deliver_archive pf (draw (success completed_message) w))
      as (entries & _ & Hd); [cbn; lia|exact Hst|].
    rewrite Hd.
    destruct (for_each _ pf tt _) as [r w'] eqn:Hrm.
    apply remove_all_frame in Hrm as [Hscreen _]. cbn [snd]. rewrite Hscreen. step.
    eexists. split; [by rewrite <- app_assoc|]. cbn. eauto.
Qed.

(** The rule at a sample: one audio file waiting for delivery. *)
Lemma delivery_shape_by_count_witness :
  session_state Sample.one_output !! "processed_files" = Some ["temp/a.mp3"] ∧
  stored Sample.one_output ["temp/a.mp3"] ∧
  ∃ new,
    screen (snd (download Sample.one_output)) = (screen Sample.one_output ++ new)%list ∧
    ∃ p data,
      ["temp/a.mp3"] = [p] ∧ files Sample.one_output !! p = Some data ∧
      controls new =
        [download_button (file_label (os_path.basename p)) (FileData data)
                         (os_path.basename p) "audio/mpeg"].
Proof.
  assert (session_state Sample.one_output !! "processed_files" = Some ["temp/a.mp3"]) as Hs
    by reflexivity.
  assert (stored Sample.one_output ["temp/a.mp3"]) as Hst
    by (repeat constructor; vm_compute; eexists; reflexivity).
  split; [exact Hs|]. split; [exact Hst|].
  exact (delivery_shape_by_count Sample.one_output ["temp/a.mp3"] Hs Hst).
Defined.

(** C2, on the code.  The user uploads [clip2.avi] alone, which has no audio
    track, and presses the convert button.  The run collects one output path,
    so the rule of the specification asks for a single-file download; but no
    file was written for it (the defect of C1), and the rerun draws its banner,
    raises on the missing file and offers no download control at all. *)
Theorem single_collected_path_not_offered :
  let r := run Sample.probe (Some ConvertButton)
               (Sample.selected [Sample.upload "clip2.avi" Byte.x01]) in
  let r' := run Sample.probe None (snd r) in
  fst r = Rerun ∧
  session_state (snd r) !! "processed_files" = Some ["temp/clip2.mp3"] ∧
  delivery_shape (length ["temp/clip2.mp3"]) = SingleFile ∧
  files (snd r) !! "temp/clip2.mp3" = None ∧
  fst r' = Raise (FileNotFoundError "temp/clip2.mp3") ∧
  screen (snd r') = [success completed_message] ∧
  controls (screen (snd r')) = [].
Proof. vm_compute. repeat split. Qed.




(** With pairwise distinct processed files, all in place, the delivery stage
    runs to completion. *)
Lemma download_completes (w : world) (processed_files : list string) :
  session_state w !! "processed_files" = Some processed_files →
  NoDup processed_files →
  stored w processed_files →
  ∃ w', download w = (Ok tt, w').
Proof.
  intros Hs Hnd Hst.
  destruct processed_files as [|p rest]; [rewrite download_nothing; eauto|].
  rewrite (download_header w (p :: rest)) by done.
  set (wd := draw (success completed_message) w).
  assert (∃ w1, deliver (p :: rest) wd = (Ok tt, w1) ∧
                session_state w1 = session_state w) as (w1 & Hd & Hs1).
  { destruct rest as [|q rest].
    - inversion Hst as [|? ? [data Hd] _]; subst.
      rewrite (deliver_single p data) by done. eexists. by split.
    - destruct (deliver_archive (p :: q :: rest) wd) as (entries & _ & Hd);
        [cbn; lia|exact Hst|].
      rewrite Hd.
      edestruct (remove_all_completes (p :: q :: rest)) as [w1 Hrm];
        [exact Hnd| |rewrite Hrm].
      + exact Hst.
      + eexists. split; [done|]. by apply remove_all_frame in Hrm as [_ ->]. }
  unfold bind. rewrite Hd. unfold session_del. rewrite Hs1, Hs. eauto.
Qed.

(** When the delivery stage has something to deliver and runs to completion,
    in the single-file branch or in the archive branch, every path of the
    processed-file set is gone from scratch storage and the session no longer
    holds the set. *)
Theorem delivery_cleans_up (w w' : world) (processed_files : list string) :
  session_state w !! "processed_files" = Some processed_files →
  processed_files ≠ [] →
  download w = (Ok tt, w') →
  Forall (fun p => files w' !! p = None) processed_files ∧
  session_state w' !! "processed_files" = None.
Proof.
  intros Hs Hne. rewrite (download_header w processed_files) by done.
  unfold bind.
  destruct (deliver processed_files _) as [[[]| |] w1] eqn:Hd; [|done|done].
  apply deliver_gone in Hd. unfold session_del.
  destruct (session_state w1 !! "processed_files"); [|done].
  intros [= <-]. step. split; [done|]. apply lookup_delete_eq.
Qed.

(** The clean-up at a sample: two audio files delivered as an archive. *)
Lemma delivery_cleans_up_witness :
  session_state Sample.two_outputs !! "processed_files" = Some ["temp/a.mp3"; "temp/b.mp3"] ∧
  ["temp/a.mp3"; "temp/b.mp3"] ≠ [] ∧
  download Sample.two_outputs = (Ok tt, snd (download Sample.two_outputs)) ∧
  Forall (fun p => files (snd (download Sample.two_outputs)) !! p = None)
         ["temp/a.mp3"; "temp/b.mp3"] ∧
  session_state (snd (download Sample.two_outputs)) !! "processed_files" = None.
Proof.
  assert (session_state Sample.two_outputs !! "processed_files"
          = Some ["temp/a.mp3"; "temp/b.mp3"]) as Hs by reflexivity.
  assert (["temp/a.mp3"; "temp/b.mp3"] ≠ ([] : list string)) as Hne by discriminate.
  assert (download Sample.two_outputs = (Ok tt, snd (download Sample.two_outputs))) as Hd
    by (vm_compute; reflexivity).
  split; [exact Hs|]. split; [exact Hne|]. split; [exact Hd|].
  exact (delivery_cleans_up Sample.two_outputs (snd (download Sample.two_outputs))
           ["temp/a.mp3"; "temp/b.mp3"] Hs Hne Hd).
Defined.

(** The single-file delivery at a sample: it completes, the file is gone and
    the set is cleared. *)
Example single_delivery_cleans_up :
  fst (download Sample.one_output) = Ok tt ∧
  files (snd (download Sample.one_output)) !! "temp/a.mp3" = None ∧
  session_state (snd (download Sample.one_output)) !! "processed_files" = None.
Proof. vm_compute. repeat split. Qed.

(** A path collected twice: the archive is offered, the clean-up loop raises
    on the second removal, and the set stays in the session. *)
Example repeated_path_stops_clean_up :
  let r := interaction Sample.probe (Some ConvertButton) Sample.same_stem in
  fst r = Raise (FileNotFoundError "temp/a.mp3") ∧
  files (snd r) !! "temp/a.mp3" = None ∧
  session_state (snd r) !! "processed_files" = Some ["temp/a.mp3"; "temp/a.mp3"].
Proof. vm_compute. repeat split. Qed.

(** C6, on the code.  The user uploads [a.mp4] and [a.mov], both with audio,
    and presses the convert button.  Both turns of the loop collect
    [temp/a.mp3].  After the rerun the archive is offered for download; the
    clean-up loop removes [temp/a.mp3], raises on removing it a second time,
    and the line that deletes the set from the session is never reached: the
    set stays, and the next run raises on it again. *)
Theorem repeated_path_leaves_set_in_session :
  let r := interaction Sample.probe (Some ConvertButton) Sample.same_stem in
  let r' := run Sample.probe None (snd r) in
  controls (screen (snd r)) =
    [download_button archive_label
       (ZipData [("a.mp3", [Byte.x11]); ("a.mp3", [Byte.x11])])
       "audios_convertidos.zip" "application/zip"] ∧
  fst r = Raise (FileNotFoundError "temp/a.mp3") ∧
  files (snd r) !! "temp/a.mp3" = None ∧
  session_state (snd r) !! "processed_files" = Some ["temp/a.mp3"; "temp/a.mp3"] ∧
  fst r' = Raise (FileNotFoundError "temp/a.mp3") ∧
  session_state (snd r') !! "processed_files" = Some ["temp/a.mp3"; "temp/a.mp3"].
Proof. vm_compute. repeat split. Qed.

(** C7, as stated, fails.  After the conversion of [clip1.mp4] (with audio)
    and [clip2.avi] (without), the delivery raises and the processed-file set
    stays in the session with [temp/clip1.mp3] on scratch storage.  The user
    presses the reset button: the set is dropped and the file is still
    there. *)
Lemma reset_leaves_artifacts :
  let w := snd (interaction Sample.probe (Some ConvertButton) Sample.with_silent_clip) in
  let w' := snd (run Sample.probe (Some ResetButton) w) in
  session_state w !! "processed_files" = Some ["temp/clip1.mp3"; "temp/clip2.mp3"] ∧
  files w !! "temp/clip1.mp3" = Some [Byte.x10] ∧
  session_state w' !! "processed_files" = None ∧
  files w' !! "temp/clip1.mp3" = Some [Byte.x10].
Proof. vm_compute. repeat split. Qed.

(** ** Reset and the upload widget *)

(** A run started by the reset button is the reset action on a fresh page. *)
Lemma reset_run (probe : string → bytes → container) (w : world) :
  run probe (Some ResetButton) w = reset_app_state (clear_screen w).
Proof.
  unfold run, script. unfold bind at 1. unfold gets at 1.
  rewrite bool_decide_eq_true_2 by done.
  unfold bind at 1. by rewrite reset_app_state_runs.
Qed.

(** It stops at the rerun request with the value of the upload widget
    untouched. *)
Lemma reset_run_keeps_uploads (probe : string → bytes → container) (w : world) :
  fst (run probe (Some ResetButton) w) = Rerun ∧
  file_uploader (snd (run probe (Some ResetButton) w)) = file_uploader w ∧
  screen (snd (run probe (Some ResetButton) w)) = [success reset_message].
Proof. rewrite reset_run, reset_app_state_runs. by step. Qed.

(** C9, on the code.  With [clip.mp4] selected in the upload widget, the user
    presses the reset button.  The run draws the confirmation and asks for the
    rerun, and the session holds neither key; but the widget still holds
    [clip.mp4], so the rerun shows the page with the file selected, and a press
    of the convert button converts it. *)
Theorem reset_keeps_selected_files :
  let w := Sample.selected [Sample.upload "clip.mp4" Byte.x10] in
  let r := run Sample.probe (Some ResetButton) w in
  fst r = Rerun ∧
  screen (snd r) = [success reset_message] ∧
  session_state (snd r) !! "processed_files" = None ∧
  session_state (snd r) !! "uploaded_files" = None ∧
  file_uploader (snd r) = [Sample.upload "clip.mp4" Byte.x10] ∧
  file_uploader (snd (interaction Sample.probe (Some ResetButton) w))
    = [Sample.upload "clip.mp4" Byte.x10] ∧
  session_state (snd (run Sample.probe (Some ConvertButton) (snd r))) !! "processed_files"
    = Some ["temp/clip.mp3"].
Proof. vm_compute. repeat split. Qed.

(** * Further properties of the script *)

(** ** The adapter *)

(** The adapter always comes back with a boolean: [False] exactly when it has
    drawn one error, [True] exactly when it has drawn nothing.  It leaves the
    session, the upload widget and the directories alone and removes no
    file. *)
Theorem adapter_answer_matches_report
    (probe : string → bytes → container) (video_path output_audio_path : string)
    (w : world) :
  ∃ b w',
    convert_to_audio probe video_path output_audio_path w = (Ok b, w') ∧
    (if b then screen w' = screen w
     else ∃ body, screen w' = (screen w ++ [error body])%list) ∧
    session_state w' = session_state w ∧
    file_uploader w' = file_uploader w ∧
    dirs w' = dirs w ∧
    (∀ p, is_Some (files w !! p) → is_Some (files w' !! p)).
Proof.
  assert (∀ (fs : gmap string bytes) (o p : string) (x : bytes),
            is_Some (fs !! p) → is_Some (<[o := x]> fs !! p)) as Hins.
  { intros fs o p x Hs. destruct (decide (o = p)) as [->|Hne].
    - rewrite lookup_insert_eq. eauto.
    - by rewrite lookup_insert_ne. }
  destruct (files w !! video_path) as [data|] eqn:Hf.
  - destruct (probe video_path data) as [err|[[err residue|mp3]|]] eqn:Hp.
    + erewrite convert_to_audio_undecodable by eauto. do 2 eexists.
      split; [done|]. step. repeat split; eauto.
    + erewrite convert_to_audio_encode_error by eauto. do 2 eexists.
      split; [done|]. step. repeat split; eauto.
      intros p Hs. destruct residue; [by apply Hins|done].
    + erewrite convert_to_audio_encoded by eauto. do 2 eexists.
      split; [done|]. step. repeat split; eauto.
    + erewrite convert_to_audio_silent by eauto. do 2 eexists.
      split; [done|]. by step.
  - erewrite convert_to_audio_missing by eauto. do 2 eexists.
    split; [done|]. step. repeat split; eauto.
Qed.

(** When the adapter answers [True], no reader it opened is left open. *)
Lemma readers_closed_on_success_witness :
  convert_to_audio Sample.probe "temp/a.mp4" "temp/a.mp3"
    (World {["temp/a.mp4" := [Byte.x10]]} ∅ ∅ [] ∅ 0 [])
  = (Ok true,
     snd (convert_to_audio Sample.probe "temp/a.mp4" "temp/a.mp3"
            (World {["temp/a.mp4" := [Byte.x10]]} ∅ ∅ [] ∅ 0 []))) ∧
  ∀ h, 0 ≤ h < 2 →
    open_clips (snd (convert_to_audio Sample.probe "temp/a.mp4" "temp/a.mp3"
                       (World {["temp/a.mp4" := [Byte.x10]]} ∅ ∅ [] ∅ 0 []))) !! h = None.
Proof.
  assert (convert_to_audio Sample.probe "temp/a.mp4" "temp/a.mp3"
            (World {["temp/a.mp4" := [Byte.x10]]} ∅ ∅ [] ∅ 0 [])
          = (Ok true,
             snd (convert_to_audio Sample.probe "temp/a.mp4" "temp/a.mp3"
                    (World {["temp/a.mp4" := [Byte.x10]]} ∅ ∅ [] ∅ 0 [])))) as Hc
    by (vm_compute; reflexivity).
  split; [exact Hc|].
  exact (readers_closed_on_success Sample.probe "temp/a.mp4" "temp/a.mp3" _ _ Hc).
Defined.

(** ** The loop over the uploads *)

Section Turns.

Variable probe : string → bytes → container.
Variable temp_dir : string.

(** One turn of the loop, in full: what it collects, what it draws and what
    it leaves on scratch storage. *)
Lemma convert_upload_turn output_audio_paths uploaded_file w :
  ∃ w',
    convert_upload probe temp_dir output_audio_paths uploaded_file w
      = (Ok (if answers probe temp_dir uploaded_file
             then (output_audio_paths ++ [output_path_of temp_dir uploaded_file])%list
             else output_audio_paths), w') ∧
    screen w' = (screen w ++ reports probe temp_dir uploaded_file)%list ∧
    session_state w' = session_state w ∧
    file_uploader w' = file_uploader w ∧
    dirs w' = dirs w ∧
    files w' !! video_path_of temp_dir uploaded_file = None ∧
    (∀ q, q ≠ video_path_of temp_dir uploaded_file →
          q ≠ output_path_of temp_dir uploaded_file →
          files w' !! q = files w !! q) ∧
    (∀ mp3,
       probe (video_path_of temp_dir uploaded_file) (getbuffer uploaded_file)
         = Decodable (Some (Encoded mp3)) →
       video_path_of temp_dir uploaded_file ≠ output_path_of temp_dir uploaded_file →
       files w' !! output_path_of temp_dir uploaded_file = Some mp3).
Proof.
  unfold convert_upload, answers, reports, extraction_error.
  fold (video_path_of temp_dir uploaded_file).
  fold (output_path_of temp_dir uploaded_file).
  set (vp := video_path_of temp_dir uploaded_file).
  set (out := output_path_of temp_dir uploaded_file).
  unfold bind at 1. unfold write_file at 1, modify at 1.
  set (w1 := set_files _ w).
  assert (files w1 !! vp = Some (getbuffer uploaded_file)) as Hf.
  { subst w1. step. apply lookup_insert_eq. }
  unfold bind at 1.
  destruct (probe vp (getbuffer uploaded_file)) as [err|[[err residue|mp3]|]] eqn:Hp.
  - erewrite convert_to_audio_undecodable by eauto.
    unfold bind, os_remove, ret. step. rewrite Hf. subst w1. step.
    eexists. split; [reflexivity|]. repeat split; try done; cbn [files screen].
    + apply lookup_delete_eq.
    + intros q Hq _. rewrite lookup_delete_ne, lookup_insert_ne; done.
  - erewrite convert_to_audio_encode_error by eauto.
    unfold bind, os_remove, ret. subst w1. step.
    assert (is_Some (match residue with
                     | Some r => <[out:=r]> (<[vp:=getbuffer uploaded_file]> (files w))
                     | None => <[vp:=getbuffer uploaded_file]> (files w)
                     end !! vp)) as [x Hx].
    { destruct residue; [|rewrite lookup_insert_eq; eauto].
      destruct (decide (out = vp)) as [->|Hne].
      - rewrite lookup_insert_eq. eauto.
      - rewrite lookup_insert_ne, lookup_insert_eq; eauto. }
    rewrite Hx. step.
    eexists. split; [reflexivity|]. repeat split; try done; cbn [files screen].
    + apply lookup_delete_eq.
    + intros q Hq Hq'. rewrite lookup_delete_ne by done.
      destruct residue; rewrite ?lookup_insert_ne; done.
  - erewrite convert_to_audio_encoded by eauto.
    unfold bind, os_remove, ret. subst w1. step.
    assert (is_Some (<[out:=mp3]> (<[vp:=getbuffer uploaded_file]> (files w)) !! vp))
      as [x Hx].
    { destruct (decide (out = vp)) as [->|Hne].
      - rewrite lookup_insert_eq. eauto.
      - rewrite lookup_insert_ne, lookup_insert_eq; eauto. }
    rewrite Hx. step.
    eexists. split; [reflexivity|]. repeat split; try done; cbn [files screen].
    + by rewrite app_nil_r.
    + apply lookup_delete_eq.
    + intros q Hq Hq'. rewrite lookup_delete_ne, !lookup_insert_ne; done.
    + intros mp3' [= <-] Hne. rewrite lookup_delete_ne by done. apply lookup_insert_eq.
  - erewrite convert_to_audio_silent by eauto.
    unfold bind, os_remove, ret. step. rewrite Hf. subst w1. step.
    eexists. split; [reflexivity|]. repeat split; try done; cbn [files screen].
    + by rewrite app_nil_r.
    + apply lookup_delete_eq.
    + intros q Hq _. rewrite lookup_delete_ne, lookup_insert_ne; done.
Qed.

End Turns.

(** The loop from start to end: its result, what it draws and what it leaves
    alone. *)
Lemma batch_run
    (probe : string → bytes → container) (temp_dir : string)
    (uploaded_files : list UploadedFile) (output_audio_paths : list string) (w : world) :
  ∃ w',
    for_each (convert_upload probe temp_dir) uploaded_files output_audio_paths w
      = (Ok (output_audio_paths ++
             map (output_path_of temp_dir)
                 (List.filter (answers probe temp_dir) uploaded_files))%list, w') ∧
    screen w' = (screen w ++ flat_map (reports probe temp_dir) uploaded_files)%list ∧
    session_state w' = session_state w ∧
    file_uploader w' = file_uploader w ∧
    dirs w' = dirs w.
Proof.
  revert output_audio_paths w.
  induction uploaded_files as [|f rest IH]; intros acc w; cbn [for_each].
  - exists w. cbn. by rewrite !app_nil_r.
  - destruct (convert_upload_turn probe temp_dir acc f w)
      as (w1 & Hturn & Hsc & Hss & Hup & Hd & _).
    unfold bind. rewrite Hturn.
    destruct (IH (if answers probe temp_dir f
                  then (acc ++ [output_path_of temp_dir f])%list else acc) w1)
      as (w' & Hrest & Hsc' & Hss' & Hup' & Hd').
    exists w'. rewrite Hrest, Hsc', Hss', Hup', Hd', Hsc, Hss, Hup, Hd.
    cbn [List.filter flat_map]. repeat split; [|by rewrite <- app_assoc].
    destruct (answers probe temp_dir f); [|done].
    cbn [map]. by rewrite <- app_assoc.
Qed.

(** The loop collects, in upload order, the output path of every upload the
    adapter answered [True] for, after the paths it started with; it draws
    the adapter's errors in upload order and nothing else, and leaves the
    session and the upload widget alone. *)
Theorem batch_collects_in_order
    (probe : string → bytes → container) (temp_dir : string)
    (uploaded_files : list UploadedFile) (output_audio_paths : list string) (w : world) :
  ∃ w',
    for_each (convert_upload probe temp_dir) uploaded_files output_audio_paths w
      = (Ok (output_audio_paths ++
             map (output_path_of temp_dir)
                 (List.filter (answers probe temp_dir) uploaded_files))%list, w') ∧
    screen w' = (screen w ++ flat_map (reports probe temp_dir) uploaded_files)%list ∧
    session_state w' = session_state w ∧
    file_uploader w' = file_uploader w.
Proof.
  destruct (batch_run probe temp_dir uploaded_files output_audio_paths w)
    as (w' & H1 & H2 & H3 & H4 & _).
  by exists w'.
Qed.

(** A path that no turn writes audio to, and that is absent, stays absent
    through the loop. *)
Lemma batch_keeps_absent
    (probe : string → bytes → container) (temp_dir : string)
    (uploaded_files : list UploadedFile) (q : string) :
  (∀ g, g ∈ uploaded_files → output_path_of temp_dir g ≠ q) →
  ∀ acc w r w',
    files w !! q = None →
    for_each (convert_upload probe temp_dir) uploaded_files acc w = (r, w') →
    files w' !! q = None.
Proof.
  induction uploaded_files as [|g rest IH]; intros Hout acc w r w' Hq; cbn [for_each].
  - unfold ret. by intros [= <- <-].
  - destruct (convert_upload_turn probe temp_dir acc g w)
      as (w1 & Hturn & _ & _ & _ & _ & Hgone & Hframe & _).
    unfold bind. rewrite Hturn. apply IH.
    + intros g' Hg'. apply Hout. by right.
    + destruct (decide (q = video_path_of temp_dir g)) as [->|Hne]; [done|].
      rewrite Hframe; [done..|]. intros ->. by apply (Hout g); [left|].
Qed.

(** When no upload's video path is the output path of an upload of the same
    batch, the loop leaves none of the temporary videos on scratch storage. *)
Theorem batch_leaves_no_video
    (probe : string → bytes → container) (temp_dir : string)
    (uploaded_files : list UploadedFile) (output_audio_paths : list string)
    (w : world) :
  Forall (fun f =>
            Forall (fun g => output_path_of temp_dir g ≠ video_path_of temp_dir f)
                   uploaded_files)
         uploaded_files →
  Forall (fun f =>
            files (snd (for_each (convert_upload probe temp_dir) uploaded_files
                                 output_audio_paths w))
              !! video_path_of temp_dir f = None)
         uploaded_files.
Proof.
  intros H.
  assert (∀ f g, f ∈ uploaded_files → g ∈ uploaded_files →
                 output_path_of temp_dir g ≠ video_path_of temp_dir f) as Hne.
  { intros f g Hf Hg. rewrite Forall_forall in H. specialize (H f Hf).
    rewrite Forall_forall in H. by apply H. }
  clear H. revert output_audio_paths w.
  induction uploaded_files as [|f rest IH]; intros acc w; [constructor|].
  cbn [for_each].
  destruct (convert_upload_turn probe temp_dir acc f w)
    as (w1 & Hturn & _ & _ & _ & _ & Hgone & _).
  unfold bind. rewrite Hturn. constructor.
  - destruct (for_each _ rest _ w1) as [r w'] eqn:Hrest. cbn [snd].
    eapply batch_keeps_absent; [|exact Hgone|exact Hrest].
    intros g Hg. apply Hne; [left|by right].
  - apply IH. intros f' g Hf' Hg. apply Hne; by right.
Qed.

(** Two uploads with audio and different stems. *)
Lemma batch_leaves_no_video_witness :
  Forall (fun f =>
            Forall (fun g => output_path_of "temp" g ≠ video_path_of "temp" f)
                   (file_uploader Sample.two_clips))
         (file_uploader Sample.two_clips) ∧
  Forall (fun f =>
            files (snd (for_each (convert_upload Sample.probe "temp")
                                 (file_uploader Sample.two_clips) [] Sample.two_clips))
              !! video_path_of "temp" f = None)
         (file_uploader Sample.two_clips).
Proof.
  assert (Forall (fun f =>
            Forall (fun g => output_path_of "temp" g ≠ video_path_of "temp" f)
                   (file_uploader Sample.two_clips))
            (file_uploader Sample.two_clips)) as H
    by (repeat constructor; vm_compute; discriminate).
  split; [exact H|].
  exact (batch_leaves_no_video Sample.probe "temp" _ [] Sample.two_clips H).
Defined.

(** ** The conversion stage *)

(** The conversion stage from start to end, for a non-empty selection. *)
Lemma conversion_run
    (probe : string → bytes → container) (uploaded_files : list UploadedFile)
    (w : world) :
  uploaded_files ≠ [] →
  ∃ w',
    conversion probe true uploaded_files w
      = (if truthy (List.filter (answers probe "temp") uploaded_files)
         then Rerun else Ok tt, w') ∧
    session_state w' =
      (if truthy (List.filter (answers probe "temp") uploaded_files)
       then <["processed_files" :=
                map (output_path_of "temp")
                    (List.filter (answers probe "temp") uploaded_files)]> (session_state w)
       else session_state w) ∧
    screen w' = (screen w ++ flat_map (reports probe "temp") uploaded_files)%list ∧
    file_uploader w' = file_uploader w ∧
    dirs w ⊆ dirs w' ∧
    ("temp" ∈ dirs w' ∨ is_Some (files w !! "temp")).
Proof.
  intros Hne. unfold conversion.
  destruct uploaded_files as [|f0 rest0]; [done|].
  cbn [andb truthy]. set (ups := f0 :: rest0) in *.
  unfold bind at 1. unfold bind at 1. unfold os_path_exists at 1, gets at 1.
  set (present := bool_decide ("temp" ∈ dirs w) || bool_decide (is_Some (files w !! "temp"))).
  set (w0 := if present then w else set_dirs (fun ds => {["temp"]} ∪ ds) w).
  assert ((if negb present then os_makedirs "temp" else ret tt) w = (Ok tt, w0)) as ->.
  { subst w0. by destruct present. }
  assert (screen w0 = screen w ∧ session_state w0 = session_state w ∧
          file_uploader w0 = file_uploader w ∧ dirs w ⊆ dirs w0 ∧
          ("temp" ∈ dirs w0 ∨ is_Some (files w !! "temp"))) as (Hsc0 & Hss0 & Hup0 & Hd0 & Ht0).
  { subst w0. destruct present eqn:Hp.
    - repeat split; [done|]. subst present.
      apply orb_true_iff in Hp as [Hp|Hp]; apply bool_decide_eq_true in Hp; auto.
    - step. repeat split; [set_solver|]. left. set_solver. }
  destruct (batch_run probe "temp" ups [] w0)
    as (w1 & Hb & Hsc & Hss & Hup & Hd).
  unfold bind at 1. rewrite Hb. cbn [app].
  assert (truthy (map (output_path_of "temp") (List.filter (answers probe "temp") ups))
          = truthy (List.filter (answers probe "temp") ups)) as ->
    by (by destruct (List.filter _ ups)).
  destruct (truthy (List.filter (answers probe "temp") ups)).
  - step. eexists. split; [reflexivity|]. step.
    rewrite Hss, Hss0, Hsc, Hsc0, Hup, Hup0, Hd. done.
  - eexists. split; [reflexivity|].
    rewrite Hss, Hss0, Hsc, Hsc0, Hup, Hup0, Hd. done.
Qed.

(** Pressing the convert button with files selected, where no regular file
    named [temp] is in the way: the stage stores the collected paths and asks
    for the rerun when there is at least one, and otherwise ends without
    touching the session (so nothing will be offered).  It draws the adapter's
    errors only, keeps the directories it found, and [temp] is a directory
    afterwards. *)
Theorem conversion_outcome
    (probe : string → bytes → container) (uploaded_files : list UploadedFile)
    (w : world) :
  uploaded_files ≠ [] →
  files w !! "temp" = None →
  ∃ w',
    conversion probe true uploaded_files w
      = (if truthy (List.filter (answers probe "temp") uploaded_files)
         then Rerun else Ok tt, w') ∧
    session_state w' =
      (if truthy (List.filter (answers probe "temp") uploaded_files)
       then <["processed_files" :=
                map (output_path_of "temp")
                    (List.filter (answers probe "temp") uploaded_files)]> (session_state w)
       else session_state w) ∧
    screen w' = (screen w ++ flat_map (reports probe "temp") uploaded_files)%list ∧
    file_uploader w' = file_uploader w ∧
    dirs w ⊆ dirs w' ∧
    "temp" ∈ dirs w'.
Proof.
  intros Hne Hfree.
  destruct (conversion_run probe uploaded_files w Hne)
    as (w' & Hc & Hs & Hsc & Hu & Hd & [Ht|[x Hx]]).
  - by exists w'.
  - congruence.
Qed.

(** The convert button pressed with [bad.mp4] (undecodable) selected. *)
Lemma conversion_outcome_witness :
  [Sample.upload "bad.mp4" Byte.x00] ≠ [] ∧
  files (Sample.selected []) !! "temp" = None ∧
  ∃ w',
    conversion Sample.probe true [Sample.upload "bad.mp4" Byte.x00] (Sample.selected [])
      = (if truthy (List.filter (answers Sample.probe "temp")
                                [Sample.upload "bad.mp4" Byte.x00])
         then Rerun else Ok tt, w') ∧
    session_state w' =
      (if truthy (List.filter (answers Sample.probe "temp")
                              [Sample.upload "bad.mp4" Byte.x00])
       then <["processed_files" :=
                map (output_path_of "temp")
                    (List.filter (answers Sample.probe "temp")
                                 [Sample.upload "bad.mp4" Byte.x00])]>
              (session_state (Sample.selected []))
       else session_state (Sample.selected [])) ∧
    screen w' = (screen (Sample.selected [])
                 ++ flat_map (reports Sample.probe "temp")
                             [Sample.upload "bad.mp4" Byte.x00])%list ∧
    file_uploader w' = file_uploader (Sample.selected []) ∧
    dirs (Sample.selected []) ⊆ dirs w' ∧
    "temp" ∈ dirs w'.
Proof.
  assert ([Sample.upload "bad.mp4" Byte.x00] ≠ []) as Hne by discriminate.
  assert (files (Sample.selected []) !! "temp" = None) as Hfree by reflexivity.
  split; [exact Hne|]. split; [exact Hfree|].
  exact (conversion_outcome Sample.probe [Sample.upload "bad.mp4" Byte.x00]
           (Sample.selected []) Hne Hfree).
Defined.

(** ** The delivery stage: how it can end *)

(** How building the archive can end: with every file read, or on the first
    missing file. *)
Lemma zip_write_result processed_files zip_file w :
  match fst (for_each zip_write processed_files zip_file w) with
  | Ok _ => stored w processed_files
  | Raise e => ∃ p, e = FileNotFoundError p ∧ p ∈ processed_files ∧ files w !! p = None
  | Rerun => False
  end.
Proof.
  revert zip_file. induction processed_files as [|p rest IH]; intros acc; cbn [for_each].
  - constructor.
  - unfold bind at 1. unfold zip_write at 1, read_file, bind, ret.
    destruct (files w !! p) as [data|] eqn:Hp.
    + specialize (IH (acc ++ [(os_path.basename p, data)])%list).
      destruct (fst (for_each zip_write rest _ w)) as [a|e|]; [|  |done].
      * constructor; [by eexists|done].
      * destruct IH as (q & -> & Hq & Hnone). exists q. repeat split; [by right|done].
    + cbn. exists p. repeat split; [by left|done].
Qed.

(** How the clean-up loop can end, and what it leaves alone. *)
Lemma remove_all_result processed_files w r w' :
  for_each (fun _ file_path => os_remove file_path) processed_files tt w = (r, w') →
  match r with
  | Ok _ => stored w processed_files ∧ NoDup processed_files
  | Raise e => ∃ p, e = FileNotFoundError p ∧ p ∈ processed_files
  | Rerun => False
  end ∧
  (∀ q, q ∉ processed_files → files w' !! q = files w !! q) ∧
  dirs w' = dirs w ∧ file_uploader w' = file_uploader w ∧
  open_clips w' = open_clips w ∧ next_clip w' = next_clip w.
Proof.
  revert w. induction processed_files as [|p rest IH]; intros w; cbn [for_each].
  - unfold ret. intros [= <- <-]. repeat split; constructor.
  - unfold bind at 1. unfold os_remove at 1.
    destruct (files w !! p) as [data|] eqn:Hp.
    + intros Hrest. apply IH in Hrest as (Hr & Hframe & Hd & Hu & Hc & Hn).
      step. repeat split; try done.
      * destruct r as [[]|e|]; [|  |done].
        -- destruct Hr as [Hst Hnd].
           assert (p ∉ rest) as Hnotin.
           { intros Hin. unfold stored in Hst. rewrite Forall_forall in Hst.
             destruct (Hst p Hin) as [x Hx]. step. by rewrite lookup_delete_eq in Hx. }
           split; [|by constructor].
           constructor; [by eexists|].
           unfold stored in *. rewrite Forall_forall in *. intros q Hq.
           specialize (Hst q Hq). step.
           rewrite lookup_delete_ne in Hst; [done|]. intros ->. done.
        -- destruct Hr as (q & -> & Hq). exists q. split; [done|by right].
      * intros q Hq. rewrite Hframe by (intros ?; apply Hq; by right).
        apply lookup_delete_ne. intros ->. apply Hq. by left.
    + intros [= <- <-]. repeat split; try done.
      exists p. split; [done|by left].
Qed.

(** How the delivery of a set can end, and what it leaves alone. *)
Lemma deliver_result processed_files w r w' :
  deliver processed_files w = (r, w') →
  match r with
  | Ok _ => stored w processed_files ∧ NoDup processed_files
  | Raise e => ∃ p, e = FileNotFoundError p ∧ p ∈ processed_files
  | Rerun => False
  end ∧
  (∀ q, q ∉ processed_files → files w' !! q = files w !! q) ∧
  session_state w' = session_state w ∧
  dirs w' = dirs w ∧ file_uploader w' = file_uploader w ∧
  open_clips w' = open_clips w ∧ next_clip w' = next_clip w.
Proof.
  unfold deliver. destruct (Nat.eqb_spec (length processed_files) 1) as [E|_].
  - destruct processed_files as [|p [|? ?]]; try discriminate. clear E.
    cbn [lookup list_lookup]. unfold read_file, os_remove. step.
    destruct (files w !! p) as [data|] eqn:Hf.
    + step. rewrite Hf. intros [= <- <-]. step. repeat split; try done.
      * constructor; [by eexists|constructor].
      * apply NoDup_singleton.
      * intros q Hq. apply lookup_delete_ne. intros ->. apply Hq. by left.
    + intros [= <- <-]. repeat split; try done.
      exists p. split; [done|by left].
  - unfold bind at 1.
    pose proof (zip_write_world processed_files [] w) as Hw.
    pose proof (zip_write_result processed_files [] w) as Hz.
    destruct (for_each zip_write processed_files [] w) as [[entries|e|] w1];
      cbn [fst snd] in Hw, Hz; subst w1; [| |done].
    + unfold st_download_button, modify. unfold bind at 1.
      intros Hrm.
      pose proof (remove_all_frame _ _ _ _ Hrm) as [_ Hss].
      apply remove_all_result in Hrm as (Hr & Hframe & Hd & Hu & Hc & Hn).
      repeat split; try done.
    + intros [= <- <-]. repeat split; try done.
      destruct Hz as (p & -> & Hp & _). by exists p.
Qed.

(** How the delivery stage can end when a set is waiting. *)
Lemma download_result w processed_files r w' :
  session_state w !! "processed_files" = Some processed_files →
  processed_files ≠ [] →
  download w = (r, w') →
  match r with
  | Ok _ => stored w processed_files ∧ NoDup processed_files ∧
            session_state w' = delete "processed_files" (session_state w)
  | Raise e => (∃ p, e = FileNotFoundError p ∧ p ∈ processed_files) ∧
               session_state w' = session_state w
  | Rerun => False
  end ∧
  (∀ q, q ∉ processed_files → files w' !! q = files w !! q) ∧
  dirs w' = dirs w ∧ file_uploader w' = file_uploader w ∧
  open_clips w' = open_clips w ∧ next_clip w' = next_clip w.
Proof.
  intros Hs Hne. rewrite (download_header w processed_files) by done.
  unfold bind.
  destruct (deliver processed_files _) as [rd w1] eqn:Hd.
  apply deliver_result in Hd as (Hr & Hframe & Hss & Hdirs & Hu & Hc & Hn).
  step. destruct rd as [[]|e|].
  - unfold session_del. rewrite Hss, Hs. intros [= <- <-]. step.
    rewrite Hss. destruct Hr. repeat split; done.
  - intros [= <- <-]. repeat split; done.
  - done.
Qed.

(** With a set waiting, the delivery stage runs to completion exactly when
    the collected paths are pairwise distinct and each is a file on scratch
    storage. *)
Theorem delivery_completes_iff (w : world) (processed_files : list string) :
  session_state w !! "processed_files" = Some processed_files →
  processed_files ≠ [] →
  (∃ w', download w = (Ok tt, w')) ↔
  (stored w processed_files ∧ NoDup processed_files).
Proof.
  intros Hs Hne. split.
  - intros [w' Hd].
    apply (download_result w processed_files) in Hd as [(Hst & Hnd & _) _]; done.
  - intros [Hst Hnd]. by apply (download_completes w processed_files).
Qed.

(** Two distinct audio files waiting for delivery. *)
Lemma delivery_completes_iff_witness :
  session_state Sample.two_outputs !! "processed_files"
    = Some ["temp/a.mp3"; "temp/b.mp3"] ∧
  ["temp/a.mp3"; "temp/b.mp3"] ≠ [] ∧
  ((∃ w', download Sample.two_outputs = (Ok tt, w')) ↔
   (stored Sample.two_outputs ["temp/a.mp3"; "temp/b.mp3"] ∧
    NoDup ["temp/a.mp3"; "temp/b.mp3"])).
Proof.
  assert (session_state Sample.two_outputs !! "processed_files"
          = Some ["temp/a.mp3"; "temp/b.mp3"]) as Hs by reflexivity.
  assert (["temp/a.mp3"; "temp/b.mp3"] ≠ ([] : list string)) as Hne by discriminate.
  split; [exact Hs|]. split; [exact Hne|].
  exact (delivery_completes_iff Sample.two_outputs ["temp/a.mp3"; "temp/b.mp3"] Hs Hne).
Defined.

(** When the delivery stage raises, it is a [FileNotFoundError] on one of the
    collected paths, and the session still holds the set: every later run
    meets the same set again. *)
Theorem delivery_failure_keeps_set (w : world) (processed_files : list string) (e : exn) :
  session_state w !! "processed_files" = Some processed_files →
  fst (download w) = Raise e →
  (∃ p, e = FileNotFoundError p ∧ p ∈ processed_files) ∧
  session_state (snd (download w)) !! "processed_files" = Some processed_files.
Proof.
  intros Hs Hr.
  destruct processed_files as [|p0 rest].
  { rewrite download_nothing in Hr by auto. done. }
  destruct (download w) as [r w'] eqn:Hd. cbn [fst snd] in *. subst r.
  apply (download_result w (p0 :: rest)) in Hd as [[Hex Hss] _]; [|done..].
  by rewrite Hss.
Qed.

(** After the conversion of [clip1.mp4] and [clip2.avi] (no audio). *)
Lemma delivery_failure_keeps_set_witness :
  session_state after_silent_conversion !! "processed_files"
    = Some ["temp/clip1.mp3"; "temp/clip2.mp3"] ∧
  fst (download after_silent_conversion) = Raise (FileNotFoundError "temp/clip2.mp3") ∧
  (∃ p, FileNotFoundError "temp/clip2.mp3" = FileNotFoundError p ∧
        p ∈ ["temp/clip1.mp3"; "temp/clip2.mp3"]) ∧
  session_state (snd (download after_silent_conversion)) !! "processed_files"
    = Some ["temp/clip1.mp3"; "temp/clip2.mp3"].
Proof.
  assert (session_state after_silent_conversion !! "processed_files"
          = Some ["temp/clip1.mp3"; "temp/clip2.mp3"]) as Hs
    by (vm_compute; reflexivity).
  assert (fst (download after_silent_conversion)
          = Raise (FileNotFoundError "temp/clip2.mp3")) as Hr
    by (vm_compute; reflexivity).
  split; [exact Hs|]. split; [exact Hr|].
  exact (delivery_failure_keeps_set after_silent_conversion
           ["temp/clip1.mp3"; "temp/clip2.mp3"] _ Hs Hr).
Defined.

(** However it ends, the delivery stage changes no file outside the
    collected paths, no directory, and neither the upload widget nor the
    media handles. *)
Theorem delivery_touches_only_the_set (w : world) (processed_files : list string) :
  session_state w !! "processed_files" = Some processed_files →
  (∀ q, q ∉ processed_files → files (snd (download w)) !! q = files w !! q) ∧
  dirs (snd (download w)) = dirs w ∧
  file_uploader (snd (download w)) = file_uploader w ∧
  open_clips (snd (download w)) = open_clips w.
Proof.
  intros Hs. destruct processed_files as [|p0 rest].
  { by rewrite download_nothing by auto. }
  destruct (download w) as [r w'] eqn:Hd. cbn [snd].
  apply (download_result w (p0 :: rest)) in Hd as (_ & Hf & Hdirs & Hu & Hc & _);
    done.
Qed.

(** One audio file waiting for delivery. *)
Lemma delivery_touches_only_the_set_witness :
  session_state Sample.one_output !! "processed_files" = Some ["temp/a.mp3"] ∧
  (∀ q, q ∉ ["temp/a.mp3"] →
        files (snd (download Sample.one_output)) !! q = files Sample.one_output !! q) ∧
  dirs (snd (download Sample.one_output)) = dirs Sample.one_output ∧
  file_uploader (snd (download Sample.one_output)) = file_uploader Sample.one_output ∧
  open_clips (snd (download Sample.one_output)) = open_clips Sample.one_output.
Proof.
  assert (session_state Sample.one_output !! "processed_files" = Some ["temp/a.mp3"]) as Hs
    by reflexivity.
  split; [exact Hs|].
  exact (delivery_touches_only_the_set Sample.one_output ["temp/a.mp3"] Hs).
Defined.

(** ** Whole runs *)

(** A run that no button started is the delivery stage on a fresh page. *)
Lemma run_none (probe : string → bytes → container) (w : world) :
  run probe None w = download (clear_screen w).
Proof.
  unfold run, script, conversion. unfold bind at 1. unfold gets at 1.
  rewrite !bool_decide_eq_false_2 by done. cbn [andb].
  unfold bind at 1. unfold ret at 1. unfold bind at 1. unfold ret at 1.
  reflexivity.
Qed.

(** A run started by the convert button is the conversion stage followed by
    the delivery stage. *)
Lemma run_convert (probe : string → bytes → container) (w : world) :
  run probe (Some ConvertButton) w =
    (conversion probe (truthy (file_uploader w)) (file_uploader w) ;; download)
      (clear_screen w).
Proof.
  unfold run, script. unfold bind at 1. unfold gets at 1.
  rewrite (bool_decide_eq_true_2 (Some ConvertButton = Some ConvertButton)) by done.
  rewrite (bool_decide_eq_false_2 (Some ConvertButton = Some ResetButton)) by done.
  cbn [andb]. unfold bind at 1. unfold ret at 1. reflexivity.
Qed.

(** The delivery stage never asks for a rerun. *)
Lemma download_never_reruns (w : world) : fst (download w) ≠ Rerun.
Proof.
  destruct (session_state w !! "processed_files") as [[|p rest]|] eqn:Hs.
  - by rewrite download_nothing by auto.
  - destruct (download w) as [r w'] eqn:Hd.
    apply (download_result w (p :: rest)) in Hd as [Hr _]; [|done..].
    cbn [fst]. by destruct r.
  - by rewrite download_nothing by auto.
Qed.

(** A run asks for a rerun in two cases only: the reset button was pressed,
    or the convert button was pressed and the adapter answered [True] for at
    least one selected file.  In particular the run that follows a rerun, which
    no button started, never asks for another one. *)
Theorem run_reruns_iff
    (probe : string → bytes → container) (clicked : option button) (w : world) :
  fst (run probe clicked w) = Rerun ↔
  (clicked = Some ResetButton ∨
   (clicked = Some ConvertButton ∧
    truthy (List.filter (answers probe "temp") (file_uploader w)) = true)).
Proof.
  destruct clicked as [[]|].
  - rewrite run_convert.
    destruct (file_uploader w) as [|f0 rest0] eqn:Hu.
    + cbn [truthy conversion andb List.filter]. unfold bind at 1, ret at 1.
      split; [by intros ?%download_never_reruns|]. by intros [|[_ ?]].
    + cbn [truthy].
      destruct (conversion_run probe (f0 :: rest0) (clear_screen w))
        as (w' & Hc & _); [done|].
      unfold bind. rewrite Hc.
      destruct (truthy (List.filter (answers probe "temp") (f0 :: rest0))).
      * split; [auto|done].
      * split; [by intros ?%download_never_reruns|]. by intros [|[_ ?]].
  - rewrite reset_run, reset_app_state_runs. split; [auto|done].
  - rewrite run_none.
    split; [by intros ?%download_never_reruns|]. by intros [|[? _]].
Qed.

(** With nothing waiting for delivery, a run that no button started, or one
    started by the convert button with nothing selected, draws nothing and
    changes nothing. *)
Theorem idle_run_changes_nothing
    (probe : string → bytes → container) (clicked : option button) (w : world) :
  clicked = None ∨ (clicked = Some ConvertButton ∧ file_uploader w = []) →
  session_state w !! "processed_files" = None ∨
  session_state w !! "processed_files" = Some [] →
  run probe clicked w = (Ok tt, clear_screen w).
Proof.
  intros [->|[-> Hu]] Hs.
  - rewrite run_none. by apply download_nothing.
  - rewrite run_convert, Hu. cbn [truthy conversion andb].
    unfold bind at 1, ret at 1. by apply download_nothing.
Qed.

(** The convert button pressed in a fresh session with nothing selected. *)
Lemma idle_run_changes_nothing_witness :
  (Some ConvertButton = None ∨
   (Some ConvertButton = Some ConvertButton ∧ file_uploader (Sample.selected []) = [])) ∧
  (session_state (Sample.selected []) !! "processed_files" = None ∨
   session_state (Sample.selected []) !! "processed_files" = Some []) ∧
  run Sample.probe (Some ConvertButton) (Sample.selected [])
    = (Ok tt, clear_screen (Sample.selected [])).
Proof.
  assert (Some ConvertButton = None ∨
          (Some ConvertButton = Some ConvertButton ∧
           file_uploader (Sample.selected []) = [])) as H1 by (right; split; reflexivity).
  assert (session_state (Sample.selected []) !! "processed_files" = None ∨
          session_state (Sample.selected []) !! "processed_files" = Some []) as H2
    by (left; reflexivity).
  split; [exact H1|]. split; [exact H2|].
  exact (idle_run_changes_nothing Sample.probe (Some ConvertButton) (Sample.selected [])
           H1 H2).
Defined.

(** From any state, pressing the reset button ends, after its rerun, in a
    page with nothing drawn (the confirmation is gone with the rerun) and a
    session without the two keys; scratch storage and the value of the upload
    widget are as they were. *)
Theorem reset_then_idle (probe : string → bytes → container) (w : world) :
  ∃ w',
    interaction probe (Some ResetButton) w = (Ok tt, w') ∧
    screen w' = [] ∧
    session_state w' =
      delete "uploaded_files" (delete "processed_files" (session_state w)) ∧
    files w' = files w ∧
    file_uploader w' = file_uploader w.
Proof.
  unfold interaction. rewrite reset_run, reset_app_state_runs. rewrite run_none.
  rewrite download_nothing.
  - eexists. split; [reflexivity|]. by step.
  - left. step. rewrite lookup_delete_ne by done. apply lookup_delete_eq.
Qed.

(** ** One upload, from the button to the download *)

(** The guard that makes [temp] touches the directories only. *)
Lemma makedirs_guard (w : world) :
  ∃ w0,
    (present <- os_path_exists "temp" ;;
     if negb present then os_makedirs "temp" else ret tt) w = (Ok tt, w0) ∧
    files w0 = files w ∧ screen w0 = screen w ∧
    session_state w0 = session_state w ∧ file_uploader w0 = file_uploader w.
Proof.
  unfold bind, os_path_exists, gets, os_makedirs, modify, ret.
  destruct (negb _); eexists; (split; [reflexivity|]); by step.
Qed.

(** The conversion stage for a single upload whose audio encodes. *)
Lemma conversion_single
    (probe : string → bytes → container) (f : UploadedFile) (mp3 : bytes) (w : world) :
  probe (video_path_of "temp" f) (getbuffer f) = Decodable (Some (Encoded mp3)) →
  video_path_of "temp" f ≠ output_path_of "temp" f →
  ∃ w',
    conversion probe true [f] w = (Rerun, w') ∧
    session_state w' !! "processed_files" = Some [output_path_of "temp" f] ∧
    files w' !! output_path_of "temp" f = Some mp3 ∧
    files w' !! video_path_of "temp" f = None ∧
    (∀ q, q ≠ video_path_of "temp" f → q ≠ output_path_of "temp" f →
          files w' !! q = files w !! q) ∧
    file_uploader w' = file_uploader w.
Proof.
  intros Hp Hne. unfold conversion. cbn [andb truthy].
  destruct (makedirs_guard w) as (w0 & Hg & Hf0 & _ & _ & Hu0).
  unfold bind at 1. rewrite Hg.
  destruct (convert_upload_turn probe "temp" [] f w0)
    as (w1 & Hturn & _ & _ & Hu1 & _ & Hgone & Hframe & Hout).
  unfold answers in Hturn. rewrite Hp in Hturn. cbn [app] in Hturn.
  unfold bind at 1. cbn [for_each]. unfold bind at 1. rewrite Hturn.
  unfold ret at 1. cbn [truthy]. step.
  eexists. split; [reflexivity|]. step. repeat split.
  - apply lookup_insert_eq.
  - by apply Hout.
  - done.
  - intros q Hq Hq'. rewrite Hframe by done. by rewrite Hf0.
  - by rewrite Hu1, Hu0.
Qed.

(** With a single file selected whose audio encodes, and whose video path is
    not its own output path, pressing the convert button ends, after the
    rerun, with the completion banner and one download control: the encoded
    bytes, named by the base name of the output path, with MIME type
    audio/mpeg.  Afterwards neither the temporary video nor the audio file is
    on scratch storage, every other file is as before, and nothing is waiting
    in the session. *)
Theorem single_upload_round_trip
    (probe : string → bytes → container) (f : UploadedFile) (mp3 : bytes) (w : world) :
  file_uploader w = [f] →
  probe (video_path_of "temp" f) (getbuffer f) = Decodable (Some (Encoded mp3)) →
  video_path_of "temp" f ≠ output_path_of "temp" f →
  ∃ w',
    interaction probe (Some ConvertButton) w = (Ok tt, w') ∧
    screen w' =
      [success completed_message;
       download_button (file_label (os_path.basename (output_path_of "temp" f)))
                       (FileData mp3)
                       (os_path.basename (output_path_of "temp" f)) "audio/mpeg"] ∧
    files w' !! video_path_of "temp" f = None ∧
    files w' !! output_path_of "temp" f = None ∧
    (∀ q, q ≠ video_path_of "temp" f → q ≠ output_path_of "temp" f →
          files w' !! q = files w !! q) ∧
    session_state w' !! "processed_files" = None ∧
    file_uploader w' = [f].
Proof.
  intros Hu Hp Hne. unfold interaction. rewrite run_convert, Hu. cbn [truthy].
  destruct (conversion_single probe f mp3 (clear_screen w) Hp Hne)
    as (w1 & Hc & Hs1 & Hout1 & Hvid1 & Hframe1 & Hu1).
  unfold bind at 1. rewrite Hc. rewrite run_none.
  rewrite (download_header _ [output_path_of "temp" f]) by done.
  unfold bind.
  rewrite (deliver_single (output_path_of "temp" f) mp3) by done.
  unfold session_del. step. rewrite Hs1.
  eexists. split; [reflexivity|]. step. repeat split.
  - rewrite lookup_delete_ne by done. exact Hvid1.
  - apply lookup_delete_eq.
  - intros q Hq Hq'. rewrite lookup_delete_ne by done. by apply Hframe1.
  - apply lookup_delete_eq.
  - by rewrite Hu1.
Qed.

(** [song.mp4], with audio, selected in a fresh session. *)
Lemma single_upload_round_trip_witness :
  file_uploader song_selected = [Sample.upload "song.mp4" Byte.x10] ∧
  Sample.probe (video_path_of "temp" (Sample.upload "song.mp4" Byte.x10))
               (getbuffer (Sample.upload "song.mp4" Byte.x10))
    = Decodable (Some (Encoded [Byte.x10])) ∧
  video_path_of "temp" (Sample.upload "song.mp4" Byte.x10)
    ≠ output_path_of "temp" (Sample.upload "song.mp4" Byte.x10) ∧
  ∃ w',
    interaction Sample.probe (Some ConvertButton) song_selected = (Ok tt, w') ∧
    screen w' =
      [success completed_message;
       download_button "📥 Descargar song.mp3" (FileData [Byte.x10])
                       "song.mp3" "audio/mpeg"] ∧
    files w' !! "temp/song.mp4" = None ∧
    files w' !! "temp/song.mp3" = None ∧
    (∀ q, q ≠ "temp/song.mp4" → q ≠ "temp/song.mp3" →
          files w' !! q = files song_selected !! q) ∧
    session_state w' !! "processed_files" = None ∧
    file_uploader w' = [Sample.upload "song.mp4" Byte.x10].
Proof.
  assert (file_uploader song_selected = [Sample.upload "song.mp4" Byte.x10]) as Hu
    by reflexivity.
  assert (Sample.probe (video_path_of "temp" (Sample.upload "song.mp4" Byte.x10))
                       (getbuffer (Sample.upload "song.mp4" Byte.x10))
          = Decodable (Some (Encoded [Byte.x10]))) as Hp by reflexivity.
  assert (video_path_of "temp" (Sample.upload "song.mp4" Byte.x10)
          ≠ output_path_of "temp" (Sample.upload "song.mp4" Byte.x10)) as Hne
    by (vm_compute; discriminate).
  split; [exact Hu|]. split; [exact Hp|]. split; [exact Hne|].
  exact (single_upload_round_trip Sample.probe (Sample.upload "song.mp4" Byte.x10)
           [Byte.x10] song_selected Hu Hp Hne).
Defined.

(** ** Names of the temporary files *)

Section Names.
Import PyStr os_path.

Lemma occurs_app c a b : occurs c (a ++ b) ↔ occurs c a ∨ occurs c b.
Proof. induction a as [|x t IH]; simpl; [tauto|]. rewrite IH. tauto. Qed.

Lemma rfind_last c a b :
  ¬ occurs c b → rfind c (a ++ String c b) = Z.of_nat (String.length a).
Proof.
  intros Hb. induction a as [|x t IH].
  - simpl. rewrite (rfind_missing c b Hb). simpl. by rewrite Ascii.eqb_refl.
  - change (String x t ++ String c b) with (String x (t ++ String c b)).
    cbn [rfind]. rewrite IH.
    change (String.length (String x t)) with (S (String.length t)).
    destruct (Z.leb_spec 0 (Z.of_nat (String.length t))); lia.
Qed.

Lemma slice_to_app a b : slice_to (String.length a) (a ++ b) = a.
Proof. induction a as [|x t IH]; simpl; [by destruct b|]. by rewrite IH. Qed.

Lemma slice_from_app a b : slice_from (String.length a) (a ++ b) = b.
Proof. induction a as [|x t IH]; simpl; [by destruct b|]. exact IH. Qed.

(** [splitext] of [stem.ext], for a stem that does not start with a dot and
    an extension without dots, both free of separators. *)
Lemma splitext_stem_ext c s ext :
  c ≠ extsep → ¬ occurs sep (String c s) → ¬ occurs sep ext → ¬ occurs extsep ext →
  splitext (String c s ++ String extsep ext) = (String c s, String extsep ext).
Proof.
  intros Hc Hs He Hd. unfold splitext.
  set (stem := String c s) in *.
  assert (rfind sep (stem ++ String extsep ext) = (-1)%Z) as ->.
  { apply rfind_missing. rewrite occurs_app. simpl. intros [?|[?|?]]; try done. }
  rewrite (rfind_last extsep stem ext Hd).
  destruct (Z.ltb_spec (-1) (Z.of_nat (String.length stem))); [|lia].
  rewrite Nat2Z.id. change (Z.to_nat (-1 + 1)) with 0. rewrite Nat.sub_0_r.
  rewrite slice_to_app, slice_from_app.
  subst stem. cbn [String.length has_stem append String.get].
  change (String c s ++ String extsep ext) with (String c (s ++ String extsep ext)).
  cbn [String.get]. by rewrite (proj2 (Ascii.eqb_neq c extsep) Hc).
Qed.

End Names.

(** For an upload named [stem.ext] (the stem not starting with a dot, the
    extension without dots, no separators), the loop writes the video to
    [temp/stem.ext] and asks for the audio at [temp/stem.mp3], whose base
    name, the name the download is offered under, is [stem.mp3].  The
    extension does not enter the output path. *)
Theorem output_name_replaces_extension (c : ascii) (s ext : string) (data : bytes) :
  c ≠ os_path.extsep →
  ¬ PyStr.occurs os_path.sep (String c s) →
  ¬ PyStr.occurs os_path.sep ext →
  ¬ PyStr.occurs os_path.extsep ext →
  video_path_of "temp" {| name := String c s ++ String os_path.extsep ext;
                          getbuffer := data |}
    = "temp/" ++ String c s ++ String os_path.extsep ext ∧
  output_path_of "temp" {| name := String c s ++ String os_path.extsep ext;
                           getbuffer := data |}
    = "temp/" ++ String c s ++ ".mp3" ∧
  os_path.basename
    (output_path_of "temp" {| name := String c s ++ String os_path.extsep ext;
                              getbuffer := data |})
    = String c s ++ ".mp3".
Proof.
  intros Hc Hs He Hd.
  assert (c ≠ os_path.sep) as Hcs by (intros ->; apply Hs; by left).
  assert (Ascii.eqb c os_path.sep = false) as Hb by (by apply Ascii.eqb_neq).
  unfold video_path_of, output_path_of. cbn [name].
  rewrite splitext_stem_ext by done. cbn [fst].
  assert (∀ n, PyStr.startswith os_path.sep n = false →
               os_path.join "temp" n = "temp/" ++ n) as Hjoin.
  { intros n Hn. unfold os_path.join. by rewrite Hn. }
  rewrite !Hjoin by exact Hb.
  split; [done|]. split; [done|].
  - apply (basename_under "temp"). rewrite occurs_app. intros [?|H]; [done|].
    cbn in H. unfold os_path.sep in H.
    repeat (destruct H as [H|H]; [discriminate|]). done.
Qed.

(** The upload [song.mp4]. *)
Lemma output_name_replaces_extension_witness :
  "s"%char ≠ os_path.extsep ∧
  ¬ PyStr.occurs os_path.sep "song" ∧
  ¬ PyStr.occurs os_path.sep "mp4" ∧
  ¬ PyStr.occurs os_path.extsep "mp4" ∧
  video_path_of "temp" {| name := "song.mp4"; getbuffer := [] |} = "temp/song.mp4" ∧
  output_path_of "temp" {| name := "song.mp4"; getbuffer := [] |} = "temp/song.mp3" ∧
  os_path.basename (output_path_of "temp" {| name := "song.mp4"; getbuffer := [] |})
    = "song.mp3".
Proof.
  assert ("s"%char ≠ os_path.extsep) as H1 by discriminate.
  assert (¬ PyStr.occurs os_path.sep "song") as H2
    by (cbn; intros H; repeat (destruct H as [H|H]; [discriminate|]); done).
  assert (¬ PyStr.occurs os_path.sep "mp4") as H3
    by (cbn; intros H; repeat (destruct H as [H|H]; [discriminate|]); done).
  assert (¬ PyStr.occurs os_path.extsep "mp4") as H4
    by (cbn; intros H; repeat (destruct H as [H|H]; [discriminate|]); done).
  split; [exact H1|]. split; [exact H2|]. split; [exact H3|]. split; [exact H4|].
  exact (output_name_replaces_extension "s"%char "ong" "mp4" [] H1 H2 H3 H4).
Defined.

(** ** Missing files and shared output paths *)

(** When one of the collected paths is not on scratch storage, the delivery
    stage draws its banner and raises [FileNotFoundError] for such a path
    before any download control is drawn and before anything is removed: the
    files that are there are not offered either. *)
Theorem missing_file_blocks_delivery (w : world) (processed_files : list string) :
  session_state w !! "processed_files" = Some processed_files →
  Exists (fun p => files w !! p = None) processed_files →
  ∃ p,
    p ∈ processed_files ∧ files w !! p = None ∧
    download w = (Raise (FileNotFoundError p), draw (success completed_message) w).
Proof.
  intros Hs Hex.
  assert (processed_files ≠ []) as Hne by (intros ->; by apply Exists_nil in Hex).
  rewrite (download_header w processed_files) by done.
  set (wd := draw (success completed_message) w).
  unfold deliver.
  destruct (Nat.eqb_spec (length processed_files) 1) as [E|_]; unfold bind.
  - destruct processed_files as [|p [|? ?]]; try discriminate. clear E.
    apply Exists_cons in Hex as [Hp|Hnil]; [|by apply Exists_nil in Hnil].
    exists p. split; [by left|]. split; [done|].
    cbn [lookup list_lookup]. unfold read_file. subst wd. step. by rewrite Hp.
  - pose proof (zip_write_world processed_files [] wd) as Hw.
    pose proof (zip_write_result processed_files [] wd) as Hz.
    destruct (for_each zip_write processed_files [] wd) as [[entries|e|] w1];
      cbn [fst snd] in Hw, Hz; subst w1; [| |done].
    + exfalso. unfold stored in Hz. rewrite Forall_forall in Hz.
      apply Exists_exists in Hex as (p & Hp & Hnone).
      destruct (Hz p Hp) as [x Hx]. subst wd. step. congruence.
    + destruct Hz as (p & -> & Hp & Hnone). exists p. subst wd.
      split; [done|]. split; [exact Hnone|reflexivity].
Qed.

(** After the conversion of [clip1.mp4] and [clip2.avi] (no audio). *)
Lemma missing_file_blocks_delivery_witness :
  session_state after_silent_conversion !! "processed_files"
    = Some ["temp/clip1.mp3"; "temp/clip2.mp3"] ∧
  Exists (fun p => files after_silent_conversion !! p = None)
         ["temp/clip1.mp3"; "temp/clip2.mp3"] ∧
  ∃ p,
    p ∈ ["temp/clip1.mp3"; "temp/clip2.mp3"] ∧
    files after_silent_conversion !! p = None ∧
    download after_silent_conversion
      = (Raise (FileNotFoundError p),
         draw (success completed_message) after_silent_conversion).
Proof.
  assert (session_state after_silent_conversion !! "processed_files"
          = Some ["temp/clip1.mp3"; "temp/clip2.mp3"]) as Hs
    by (vm_compute; reflexivity).
  assert (Exists (fun p => files after_silent_conversion !! p = None)
                 ["temp/clip1.mp3"; "temp/clip2.mp3"]) as Hex
    by (apply Exists_cons_tl, Exists_cons_hd; vm_compute; reflexivity).
  split; [exact Hs|]. split; [exact Hex|].
  exact (missing_file_blocks_delivery after_silent_conversion
           ["temp/clip1.mp3"; "temp/clip2.mp3"] Hs Hex).
Defined.

(** Two uploads whose audio encodes and whose output paths coincide: the loop
    collects the shared path twice, and the file found there afterwards is the
    audio of the second upload; the audio of the first is lost. *)
Theorem shared_output_path_is_overwritten
    (probe : string → bytes → container) (temp_dir : string)
    (f g : UploadedFile) (mp3_f mp3_g : bytes) (w : world) :
  output_path_of temp_dir f = output_path_of temp_dir g →
  probe (video_path_of temp_dir f) (getbuffer f) = Decodable (Some (Encoded mp3_f)) →
  probe (video_path_of temp_dir g) (getbuffer g) = Decodable (Some (Encoded mp3_g)) →
  video_path_of temp_dir g ≠ output_path_of temp_dir g →
  ∃ w',
    for_each (convert_upload probe temp_dir) [f; g] [] w
      = (Ok [output_path_of temp_dir g; output_path_of temp_dir g], w') ∧
    files w' !! output_path_of temp_dir g = Some mp3_g.
Proof.
  intros Hsame Hpf Hpg Hne. cbn [for_each].
  destruct (convert_upload_turn probe temp_dir [] f w) as (w1 & Hf & _).
  unfold answers in Hf. rewrite Hpf in Hf. cbn [app] in Hf.
  unfold bind at 1. rewrite Hf.
  destruct (convert_upload_turn probe temp_dir [output_path_of temp_dir f] g w1)
    as (w2 & Hg & _ & _ & _ & _ & _ & _ & Hout).
  unfold answers in Hg. rewrite Hpg in Hg. cbn [app] in Hg.
  unfold bind at 1. rewrite Hg. unfold ret.
  exists w2. rewrite Hsame. split; [done|]. by apply Hout.
Qed.

(** [a.mp4] and [a.mov], both with audio. *)
Lemma shared_output_path_is_overwritten_witness :
  output_path_of "temp" (Sample.upload "a.mp4" Byte.x10)
    = output_path_of "temp" (Sample.upload "a.mov" Byte.x11) ∧
  Sample.probe (video_path_of "temp" (Sample.upload "a.mp4" Byte.x10))
               (getbuffer (Sample.upload "a.mp4" Byte.x10))
    = Decodable (Some (Encoded [Byte.x10])) ∧
  Sample.probe (video_path_of "temp" (Sample.upload "a.mov" Byte.x11))
               (getbuffer (Sample.upload "a.mov" Byte.x11))
    = Decodable (Some (Encoded [Byte.x11])) ∧
  video_path_of "temp" (Sample.upload "a.mov" Byte.x11)
    ≠ output_path_of "temp" (Sample.upload "a.mov" Byte.x11) ∧
  ∃ w',
    for_each (convert_upload Sample.probe "temp")
             [Sample.upload "a.mp4" Byte.x10; Sample.upload "a.mov" Byte.x11] []
             Sample.same_stem
      = (Ok [output_path_of "temp" (Sample.upload "a.mov" Byte.x11);
             output_path_of "temp" (Sample.upload "a.mov" Byte.x11)], w') ∧
    files w' !! output_path_of "temp" (Sample.upload "a.mov" Byte.x11)
      = Some [Byte.x11].
Proof.
  assert (output_path_of "temp" (Sample.upload "a.mp4" Byte.x10)
          = output_path_of "temp" (Sample.upload "a.mov" Byte.x11)) as H1
    by reflexivity.
  assert (Sample.probe (video_path_of "temp" (Sample.upload "a.mp4" Byte.x10))
                       (getbuffer (Sample.upload "a.mp4" Byte.x10))
          = Decodable (Some (Encoded [Byte.x10]))) as H2 by reflexivity.
  assert (Sample.probe (video_path_of "temp" (Sample.upload "a.mov" Byte.x11))
                       (getbuffer (Sample.upload "a.mov" Byte.x11))
          = Decodable (Some (Encoded [Byte.x11]))) as H3 by reflexivity.
  assert (video_path_of "temp" (Sample.upload "a.mov" Byte.x11)
          ≠ output_path_of "temp" (Sample.upload "a.mov" Byte.x11)) as H4
    by (vm_compute; discriminate).
  split; [exact H1|]. split; [exact H2|]. split; [exact H3|]. split; [exact H4|].
  exact (shared_output_path_is_overwritten Sample.probe "temp"
           (Sample.upload "a.mp4" Byte.x10) (Sample.upload "a.mov" Byte.x11)
           [Byte.x10] [Byte.x11] Sample.same_stem H1 H2 H3 H4).
Defined.
